(** * Pharmacy inventory: the point-of-sale transaction of [inventory/views.py]

    A shallow embedding of [pos_view] (src/inventory/views.py) together with
    the model classes it touches (src/inventory/models.py), followed by the
    properties of the sale transaction: stock decrement and restoration,
    total computation, roll-back on failure.

    The relational store is a record of tables; primary keys are [Z];
    the ORM calls of the view are operations of a state-and-exception monad
    over that record, and [transaction.atomic()] restores the snapshot taken
    on entry when its body raises. *)

From stdpp Require Import gmap strings list fin_maps sorting.
From Stdlib Require Import ZArith Lia.

Local Open Scope Z_scope.

(** ** Model classes (inventory/models.py) *)

Module Profile.
(** [Profile]: [role] is one of 'admin' / 'staff' (or blank);
    [permissions] holds the codenames of the granted permissions. *)
Record t : Type := mk { role : string; permissions : list string }.
End Profile.

Module User.
(** [django.contrib.auth.models.User] as the view sees it. [profile] is
    [None] when [hasattr(user, 'profile')] is false. *)
Record t : Type := mk {
  pk : Z;
  is_authenticated : bool;
  profile : option Profile.t
}.
End User.

Module Medicine.
(** The columns of [Medicine] that the sale transaction reads or writes.
    [quantity] is a [PositiveIntegerField]: the column carries the
    database constraint [quantity >= 0] (see [save_quantity_F]).
    The descriptive columns (code, brand, category, dates, ...) take no
    part in the transaction and are left out. models.py declares no
    [is_active] field, so there is no such column: views.py names one in
    two filters and assigns one on an instance (see [for_sale] and
    [MedicineDeleteView_post]). *)
Record t : Type := mk {
  name : string;
  quantity : Z;
  purchase_price : Z;
  selling_price : Z
}.

Definition set_quantity (q : Z) (m : t) : t :=
  mk (name m) q (purchase_price m) (selling_price m).
End Medicine.

Module Sale.
Record t : Type := mk {
  created_at : Z;               (* DateTimeField(default=timezone.now) *)
  created_by : option Z;        (* ForeignKey(User, null=True) *)
  delivery_fee : Z;
  total_amount : Z;
  customer_name : string;
  customer_phone : string;
  customer_address : string
}.

(** [Sale.objects.create()]: every field at its default. *)
Definition fresh (now : Z) : t := mk now None 0 0 EmptyString EmptyString EmptyString.

Definition items_only_total (s : t) : Z := total_amount s - delivery_fee s.

Definition set_total_amount (x : Z) (s : t) : t :=
  mk (created_at s) (created_by s) (delivery_fee s) x
     (customer_name s) (customer_phone s) (customer_address s).
End Sale.

Module SaleItem.
Record t : Type := mk {
  pk : Z;
  sale : Z;                     (* ForeignKey(Sale, on_delete=CASCADE) *)
  medicine : Z;                 (* ForeignKey(Medicine, on_delete=PROTECT) *)
  quantity : Z;                 (* PositiveIntegerField *)
  price_at_sale : Z
}.

Definition subtotal (i : t) : Z := quantity i * price_at_sale i.
End SaleItem.

(** ** The data store *)

Record DB : Type := mkDB {
  medicines : gmap Z Medicine.t;
  sales : gmap Z Sale.t;
  items : list SaleItem.t;        (* in insertion (primary key) order *)
  next_sale_pk : Z;               (* auto-increment counters *)
  next_item_pk : Z
}.

Definition set_medicines (f : gmap Z Medicine.t → gmap Z Medicine.t) (db : DB) : DB :=
  mkDB (f (medicines db)) (sales db) (items db) (next_sale_pk db) (next_item_pk db).

Definition set_sales (f : gmap Z Sale.t → gmap Z Sale.t) (db : DB) : DB :=
  mkDB (medicines db) (f (sales db)) (items db) (next_sale_pk db) (next_item_pk db).

Definition set_items (f : list SaleItem.t → list SaleItem.t) (db : DB) : DB :=
  mkDB (medicines db) (sales db) (f (items db)) (next_sale_pk db) (next_item_pk db).

(** ** Exceptions and the transaction monad *)

Inductive exn : Type :=
| Http404                         (* get_object_or_404(Sale, pk=sale_id) *)
| DoesNotExist                    (* Medicine.objects.get(pk=...) *)
| ValueError (msg : string)       (* raise ValueError(f"Not enough stock ...") *)
| IntegrityError (column : string)(* CHECK constraint of a PositiveIntegerField *)
| DatabaseError                   (* save(update_fields=...) touched no row *)
| OverflowError                   (* an integer too large for its column *)
| FieldError (name : string).     (* a filter on a field the model has not *)

(** A computation runs on the store and either returns or raises; in both
    cases it hands back the store as it left it. *)
Definition M (A : Type) : Type := DB → (exn + A) * DB.

Definition ret {A} (a : A) : M A := λ db, (inr a, db).
Definition raise {A} (e : exn) : M A := λ db, (inl e, db).
Definition bind {A B} (m : M A) (k : A → M B) : M B :=
  λ db, match m db with
        | (inl e, db') => (inl e, db')
        | (inr a, db') => k a db'
        end.

Notation "x <-- m ;; k" := (bind m (λ x, k))
  (at level 100, m at next level, right associativity, only parsing).
Notation "m ;;; k" := (bind m (λ _, k))
  (at level 100, right associativity, only parsing).

(** [with transaction.atomic(): body]: an exception leaving the block
    discards every write the block made. *)
Definition atomic {A} (body : M A) : M A :=
  λ db, match body db with
        | (inl e, _) => (inl e, db)
        | (inr a, db') => (inr a, db')
        end.

(** A Python [for x in l: body(x)] loop. *)
Fixpoint for_each {A} (body : A → M unit) (l : list A) : M unit :=
  match l with
  | [] => ret tt
  | x :: xs => body x ;;; for_each body xs
  end.

(** ** ORM operations used by the view *)

(** An [IntegerField] or [PositiveIntegerField] is kept in a 64-bit signed
    integer column; writing a value outside its range raises and the
    statement is not carried out. *)
Definition column_min : Z := - 2 ^ 63.
Definition column_max : Z := 2 ^ 63 - 1.

Definition in_column (x : Z) : bool := (column_min <=? x) && (x <=? column_max).

Definition get_object_or_404 (pk : Z) : M Sale.t :=
  λ db, match sales db !! pk with
        | Some s => (inr s, db)
        | None => (inl Http404, db)
        end.

Definition Sale_objects_create (now : Z) : M (Z * Sale.t) :=
  λ db, let pk := next_sale_pk db in
        (inr (pk, Sale.fresh now),
         mkDB (medicines db) (<[pk := Sale.fresh now]> (sales db)) (items db)
              (pk + 1) (next_item_pk db)).

(** [sale.save()]: writes every field of the instance to its row; the
    integer fields [delivery_fee] and [total_amount] must fit their
    columns. *)
Definition Sale_save (pk : Z) (s : Sale.t) : M unit :=
  λ db, if in_column (Sale.delivery_fee s) && in_column (Sale.total_amount s)
        then (inr tt, set_sales <[pk := s]> db)
        else (inl OverflowError, db).

(** [sale.items.all()] *)
Definition items_of (sale_pk : Z) (l : list SaleItem.t) : list SaleItem.t :=
  filter (λ i, SaleItem.sale i = sale_pk) l.

Definition items_all (sale_pk : Z) : M (list SaleItem.t) :=
  λ db, (inr (items_of sale_pk (items db)), db).

(** [sale.items.all().delete()] *)
Definition items_delete (sale_pk : Z) : M unit :=
  λ db, (inr tt, set_items (filter (λ i, SaleItem.sale i ≠ sale_pk)) db).

(** [Medicine.objects.get(pk=...)], also the lazy load of
    [old_item.medicine]. *)
Definition Medicine_objects_get (pk : Z) : M Medicine.t :=
  λ db, match medicines db !! pk with
        | Some m => (inr m, db)
        | None => (inl DoesNotExist, db)
        end.

(** [medicine.quantity = F('quantity') + delta;
     medicine.save(update_fields=['quantity'])]:
    the database evaluates [quantity + delta] on the current row. The column
    is a [PositiveIntegerField], so a negative result violates its CHECK
    constraint and the statement raises [IntegrityError]. *)
Definition save_quantity_F (pk : Z) (delta : Z) : M unit :=
  λ db, match medicines db !! pk with
        | Some m =>
            let q := Medicine.quantity m + delta in
            if q <? 0 then (inl (IntegrityError "quantity"), db)
            else (inr tt, set_medicines <[pk := Medicine.set_quantity q m]> db)
        | None => (inl DatabaseError, db)
        end.

(** [SaleItem.objects.create(sale=, medicine=, quantity=, price_at_sale=)].
    Both integers must fit their columns; [quantity] is a
    [PositiveIntegerField] (CHECK [quantity >= 0]), [price_at_sale] a plain
    [IntegerField]. *)
Definition SaleItem_objects_create (sale medicine quantity price_at_sale : Z) : M unit :=
  λ db, if negb (in_column quantity && in_column price_at_sale)
        then (inl OverflowError, db)
        else if quantity <? 0 then (inl (IntegrityError "quantity"), db)
        else (inr tt,
              mkDB (medicines db) (sales db)
                   (items db ++ [SaleItem.mk (next_item_pk db) sale medicine
                                             quantity price_at_sale])
                   (next_sale_pk db) (next_item_pk db + 1)).

(** [sum(item.subtotal for item in ...)] *)
Definition sum_subtotals (l : list SaleItem.t) : Z :=
  foldr (λ i acc, SaleItem.subtotal i + acc) 0 l.

(** [Sale.update_total] on the in-memory instance [s] of row [pk]. *)
Definition update_total (pk : Z) (s : Sale.t) : M unit :=
  its <-- items_all pk ;;
  let items_total := sum_subtotals its in
  Sale_save pk (Sale.set_total_amount (items_total + Sale.delivery_fee s) s).

(** ** Permission helpers (views.py, is_admin / user_has_permission) *)

Definition is_admin (user : User.t) : bool :=
  User.is_authenticated user &&
  match User.profile user with
  | Some p => bool_decide (Profile.role p = "admin")
  | None => false
  end.

Definition user_has_permission (user : User.t) (perm_codename : string) : bool :=
  match User.profile user with
  | None => false
  | Some p =>
      if negb (User.is_authenticated user) then false
      else if is_admin user then true
      else bool_decide (perm_codename ∈ Profile.permissions p)
  end.

(** ** The request *)

(** One entry of [cart_data], after [int(item_data['quantity'])] and
    [int(item_data['price'])]. *)
Record CartLine : Type := mkLine { id : Z; quantity : Z; price : Z }.

(** The decoded JSON body of a POST. *)
Record Data : Type := mkData {
  cart : list CartLine;
  delivery_fee : Z;
  customer_name : string;
  customer_phone : string;
  customer_address : string;
  sale_id : option Z
}.

Inductive Method : Type :=
| GET (sale_id : option Z)
| POST (data : Data).

Record Request : Type := mkRequest {
  user : User.t;
  method : Method;
  now : Z                         (* what timezone.now() returns *)
}.

Inductive Response : Type :=
| Redirect (to : string)
| JsonSuccess (sale_pk : Z)       (* {'status': 'success', ..., 'sale_id': pk} *)
| JsonError (e : exn)             (* {'status': 'error', 'message': str(e)}, 400 *)
| Render (medicines : gmap Z Medicine.t) (sale_to_modify : option Z)
| ServerError (e : exn).          (* an exception no handler catches, 500 *)

(** Python truthiness of [data.get('sale_id')]. *)
Definition truthy (sale_id : option Z) : option Z :=
  match sale_id with
  | Some n => if n =? 0 then None else Some n
  | None => None
  end.

(** ** pos_view *)

(** Lines 275-277: one iteration of "return old items to stock". *)
Definition restore_item (old_item : SaleItem.t) : M unit :=
  Medicine_objects_get (SaleItem.medicine old_item) ;;;
  save_quantity_F (SaleItem.medicine old_item) (SaleItem.quantity old_item).

(** Lines 290-305: one iteration of the cart loop. *)
Definition sell_line (sale_pk : Z) (item_data : CartLine) : M unit :=
  medicine <-- Medicine_objects_get (id item_data) ;;
  let quantity_sold := quantity item_data in
  let price_at_sale := price item_data in
  if Medicine.quantity medicine <? quantity_sold
  then raise (ValueError ("Not enough stock for " +:+ Medicine.name medicine +:+ "."))
  else
    SaleItem_objects_create sale_pk (id item_data) quantity_sold price_at_sale ;;;
    save_quantity_F (id item_data) (- quantity_sold).

(** Whether the POST amends an existing sale (line 272), and which. *)
Definition amend_target (user : User.t) (data : Data) : option Z :=
  match truthy (sale_id data) with
  | Some pk => if user_has_permission user "change_sale" then Some pk else None
  | None => None
  end.

(** Lines 282-286: the assignments on the in-memory [sale] instance. *)
Definition assign_fields (user : User.t) (data : Data) (sale : Sale.t) : Sale.t :=
  Sale.mk (Sale.created_at sale) (Some (User.pk user))
          (delivery_fee data) (Sale.total_amount sale)
          (customer_name data) (customer_phone data) (customer_address data).

(** Lines 272-287: fetch the sale to amend, giving its items back to stock
    and deleting them, or create a new sale; then set the fields and save.
    Returns the key and the in-memory instance. *)
Definition open_sale (user : User.t) (data : Data) (now : Z) : M (Z * Sale.t) :=
  ps <-- match amend_target user data with
         | Some pk =>
             sale <-- get_object_or_404 pk ;;
             old_items <-- items_all pk ;;
             for_each restore_item old_items ;;;
             items_delete pk ;;;
             ret (pk, sale)
         | None => Sale_objects_create now
         end ;;
  let sale := assign_fields user data ps.2 in
  Sale_save ps.1 sale ;;;
  ret (ps.1, sale).

(** Lines 272-307: the body of the atomic block. *)
Definition sale_transaction (user : User.t) (data : Data) (now : Z) : M Z :=
  ps <-- open_sale user data now ;;
  for_each (sell_line ps.1) (cart data) ;;;
  update_total ps.1 ps.2 ;;;
  ret ps.1.

(** Line 313: [Medicine.objects.filter(quantity__gt=0, is_active=True)].
    [Medicine] has no field [is_active], so building the filter raises
    [FieldError] whatever the rows are. *)
Definition for_sale (ms : gmap Z Medicine.t) : exn + gmap Z Medicine.t :=
  inl (FieldError "is_active").

Definition pos_view (request : Request) (db : DB) : Response * DB :=
  if negb (User.is_authenticated (user request)) then (Redirect "/login/", db)
  else if negb (user_has_permission (user request) "add_sale")
  then (Redirect "dashboard", db)
  else match method request with
       | POST data =>
           match atomic (sale_transaction (user request) data (now request)) db with
           | (inr pk, db') => (JsonSuccess pk, db')
           | (inl e, db') => (JsonError e, db')
           end
       | GET sale_id =>
           match for_sale (medicines db) with
           | inl e => (ServerError e, db)
           | inr medicines =>
               let sale_to_modify :=
                 match truthy sale_id with
                 | Some pk =>
                     if user_has_permission (user request) "change_sale"
                     then (if bool_decide (is_Some (sales db !! pk)) then Some pk
                           else None)
                     else None
                 | None => None
                 end in
               (Render medicines sale_to_modify, db)
           end
       end.

(** ** A concrete store and actors, used in the examples below *)

Definition admin_user : User.t :=
  User.mk 1 true (Some (Profile.mk "admin" [])).

Definition clerk : User.t :=
  User.mk 2 true (Some (Profile.mk "staff" ["add_sale"; "change_sale"]%string)).

Definition med_A : Medicine.t := Medicine.mk "A" 10 300 500.
Definition med_B : Medicine.t := Medicine.mk "B" 2 60 100.

Definition db0 : DB :=
  mkDB (<[1 := med_A]> (<[2 := med_B]> ∅)) ∅ [] 1 1.

Definition post (u : User.t) (d : Data) (t : Z) : Request := mkRequest u (POST d) t.

Definition stock (db : DB) (m : Z) : option Z :=
  Medicine.quantity <$> medicines db !! m.

Definition total_of (db : DB) (s : Z) : option Z :=
  Sale.total_amount <$> sales db !! s.

(** ** Bookkeeping over carts and item lists *)

(** Total quantity that the lines of [c] request of medicine [m]. *)
Fixpoint requested (m : Z) (c : list CartLine) : Z :=
  match c with
  | [] => 0
  | l :: c' => (if decide (id l = m) then quantity l else 0) + requested m c'
  end.

(** Total quantity of medicine [m] held by the items [l]. *)
Fixpoint held (m : Z) (l : list SaleItem.t) : Z :=
  match l with
  | [] => 0
  | i :: l' => (if decide (SaleItem.medicine i = m) then SaleItem.quantity i else 0)
               + held m l'
  end.

(** The rows that the cart loop inserts for sale [sale_pk], the first of
    them under primary key [first]. *)
Fixpoint line_items (sale_pk first : Z) (c : list CartLine) : list SaleItem.t :=
  match c with
  | [] => []
  | l :: c' => SaleItem.mk first sale_pk (id l) (quantity l) (price l)
               :: line_items sale_pk (first + 1) c'
  end.

(** Sum over the cart of quantity x unit price. *)
Fixpoint cart_total (c : list CartLine) : Z :=
  match c with
  | [] => 0
  | l :: c' => quantity l * price l + cart_total c'
  end.

(** Every line asks for a non-negative quantity of an existing medicine,
    and no more of it than the starting stock [ms] less what the earlier
    lines ([seen]) already asked of the same medicine. *)
Fixpoint cart_fits (ms : gmap Z Medicine.t) (seen c : list CartLine) : bool :=
  match c with
  | [] => true
  | l :: c' =>
      match ms !! id l with
      | Some m =>
          (0 <=? quantity l)
          && (requested (id l) seen + quantity l <=? Medicine.quantity m)
          && cart_fits ms (seen ++ [l]) c'
      | None => false
      end
  end.

(** Row [m] with its stock moved by [d]. *)
Definition moved (d : Z) (m : Medicine.t) : Medicine.t :=
  Medicine.set_quantity (Medicine.quantity m + d) m.

(** Integrity of the store that the auto-increment key of [Sale] guarantees:
    no item row points at a sale key that has not been handed out yet. *)
Definition wf_db (db : DB) : bool :=
  forallb (λ i, SaleItem.sale i <? next_sale_pk db) (items db).

(** Index of the cart line at which a loop raises, if it does. *)
Fixpoint raising_index {A} (body : A → M unit) (l : list A) (db : DB) : option nat :=
  match l with
  | [] => None
  | x :: xs =>
      match body x db with
      | (inl _, _) => Some 0%nat
      | (inr _, db1) => S <$> raising_index body xs db1
      end
  end.

(** Index of the cart line at which the cart loop of the transaction
    raises ([None] when the loop completes or is not reached). *)
Definition raising_line (user : User.t) (data : Data) (now : Z) (db : DB) : option nat :=
  match open_sale user data now db with
  | (inr ps, db1) => raising_index (sell_line ps.1) (cart data) db1
  | (inl _, _) => None
  end.

(** [MedicineUpdateView] (generic [UpdateView] over [MedicineForm]) once the
    form has validated: the cleaned form fields are written to row [pk]. *)
Definition MedicineUpdateView_form_valid (pk : Z) (cleaned : Medicine.t) (db : DB) : DB :=
  set_medicines
    (alter (λ m, Medicine.mk (Medicine.name cleaned) (Medicine.quantity cleaned)
                             (Medicine.purchase_price cleaned)
                             (Medicine.selling_price cleaned)) pk) db.

(** Every medicine row has a non-negative stock. *)
Definition stock_nonneg (db : DB) : Prop :=
  ∀ m med, medicines db !! m = Some med → 0 ≤ Medicine.quantity med.

(** Carrying out requests one at a time; the stores reached, in order. *)
Fixpoint run (requests : list Request) (db : DB) : list DB :=
  match requests with
  | [] => []
  | r :: rs => let db' := (pos_view r db).2 in db' :: run rs db'
  end.

Definition is_error (r : Response) : Prop := ∃ e, r = JsonError e.

Definition not_enough_stock (m : Medicine.t) : exn :=
  ValueError ("Not enough stock for " +:+ Medicine.name m +:+ ".").

(** The instance that [update_total] saves: [s] with the recomputed total. *)
Definition final_sale (fee : Z) (its : list SaleItem.t) (s : Sale.t) : Sale.t :=
  Sale.set_total_amount (sum_subtotals its + fee) s.

(** The request passes the guards of [pos_view] and carries the POST body
    [data]. *)
Definition may_post (request : Request) (data : Data) : Prop :=
  User.is_authenticated (user request) = true
  ∧ user_has_permission (user request) "add_sale" = true
  ∧ method request = POST data.

(** The item row and the cart line it was created from agree. *)
Definition item_of_line (i : SaleItem.t) (l : CartLine) : Prop :=
  SaleItem.medicine i = id l
  ∧ SaleItem.quantity i = quantity l
  ∧ SaleItem.price_at_sale i = price l.

(** ** Concrete requests *)

(** A POST body with no customer details. *)
Definition body (c : list CartLine) (fee : Z) (sid : option Z) : Data :=
  mkData c fee EmptyString EmptyString EmptyString sid.

(** Medicine A (stock 10): three units at 500, delivery fee 100. *)
Definition data_A : Data := body [mkLine 1 3 500] 100 None.
Definition request_A : Request := post clerk data_A 7.

(** The store once [request_A] has been served. *)
Definition db_A : DB := (pos_view request_A db0).2.

(** Medicine B (stock 2): five units at 100. *)
Definition data_B : Data := body [mkLine 2 5 100] 0 None.
Definition request_B : Request := post clerk data_B 8.

(** Amending sale 1 to five units of A, fee 200, by another actor. *)
Definition data_amend : Data := body [mkLine 1 5 500] 200 (Some 1).
Definition request_amend : Request := post admin_user data_amend 9.

(** Amending sale 1 to fifty units of A: more than the restored stock. *)
Definition data_amend_short : Data := body [mkLine 1 50 500] 200 (Some 1).
Definition request_amend_short : Request := post admin_user data_amend_short 9.

(** Two lines for medicine B (stock 2): five units, then one. *)
Definition data_BB : Data := body [mkLine 2 5 100; mkLine 2 1 100] 0 None.
Definition request_BB : Request := post clerk data_BB 8.

(** Two lines for medicine A (stock 10): six units, then five. *)
Definition data_AA : Data := body [mkLine 1 6 500; mkLine 1 5 500] 0 None.
Definition request_AA : Request := post clerk data_AA 8.

(** [MedicineDeleteView.post] (lines 235-244), reached once the permission
    mixin has let the user through. [medicine.is_active = False] sets an
    attribute of the instance that is no field of [Medicine], and
    [medicine.save()] writes the fields back as they were read. *)
Definition MedicineDeleteView_post (pk : Z) (db : DB) : DB :=
  match medicines db !! pk with
  | Some medicine => set_medicines <[pk := medicine]> db
  | None => db
  end.

(** The store after medicine A has been removed through the delete view,
    and a cart for three units of it. *)
Definition db_C : DB := MedicineDeleteView_post 1 db0.
Definition data_C : Data := body [mkLine 1 3 500] 0 None.
Definition request_C : Request := post clerk data_C 8.

(** A line of quantity zero at a negative price, with a negative fee. *)
Definition data_odd : Data := body [mkLine 1 0 (-500)] (-100) None.
Definition request_odd : Request := post clerk data_odd 8.

(** A line of negative quantity. *)
Definition data_neg : Data := body [mkLine 1 (-3) 500] 0 None.
Definition request_neg : Request := post clerk data_neg 8.

(** Three units of A at a unit price of 1 (the selling price is 500). *)
Definition data_cheap : Data := body [mkLine 1 3 1] 0 None.
Definition request_cheap : Request := post clerk data_cheap 8.

(** The cart or the fee is malformed: a non-positive quantity, a negative
    unit price, or a negative delivery fee. *)
Definition malformed (data : Data) : bool :=
  (delivery_fee data <? 0)
  || existsb (λ l, (quantity l <=? 0) || (price l <? 0)) (cart data).

(** [c] keeps [P] true of the store, whether it returns or raises. *)
Definition preserves {A} (P : DB → Prop) (c : M A) : Prop :=
  ∀ db r db', P db → c db = (r, db') → P db'.

(** ** Integrity of the store *)

(** The invariant that [Sale.update_total] establishes for a sale, asked of
    every sale row: total_amount is the sum of the subtotals of the sale's
    items plus its delivery fee. *)
Definition totals_consistent (db : DB) : Prop :=
  ∀ pk s, sales db !! pk = Some s →
    Sale.total_amount s
    = sum_subtotals (items_of pk (items db)) + Sale.delivery_fee s.

(** The integers stored in the sale and item rows fit their columns. *)
Definition columns_in_range (db : DB) : Prop :=
  Forall (λ i, in_column (SaleItem.quantity i) = true
               ∧ in_column (SaleItem.price_at_sale i) = true) (items db)
  ∧ ∀ pk s, sales db !! pk = Some s →
            in_column (Sale.delivery_fee s) = true
            ∧ in_column (Sale.total_amount s) = true.

(** What the schema and the views keep true of the tables: sale keys are
    below the auto-increment counter, every item row references an existing
    sale and an existing medicine and has a non-negative quantity, stocks
    are non-negative, the totals are up to date, and the stored integers
    fit their columns. *)
Definition consistent (db : DB) : Prop :=
  (∀ pk, next_sale_pk db ≤ pk → sales db !! pk = None)
  ∧ Forall (λ i, is_Some (sales db !! SaleItem.sale i)
                 ∧ is_Some (medicines db !! SaleItem.medicine i)
                 ∧ 0 ≤ SaleItem.quantity i) (items db)
  ∧ stock_nonneg db
  ∧ totals_consistent db
  ∧ columns_in_range db.

(** The integers of a cart line, and of a POST body, fit their columns:
    each quantity and unit price, the delivery fee, and the total that
    [update_total] will store. *)
Definition storable_line (l : CartLine) : bool :=
  in_column (quantity l) && in_column (price l).

Definition storable (data : Data) : bool :=
  in_column (delivery_fee data)
  && forallb storable_line (cart data)
  && in_column (cart_total (cart data) + delivery_fee data).

(** Every line of [c] asks for a non-negative quantity of a medicine that
    [avail] knows, and all the lines of [c] for that medicine together ask
    for no more than [avail] gives. *)
Definition within_stock (avail : Z → option Z) (c : list CartLine) : Prop :=
  Forall (λ l, 0 ≤ quantity l
               ∧ ∃ a, avail (id l) = Some a ∧ requested (id l) c ≤ a) c.


(** A staff member who may sell but not amend. *)
Definition seller : User.t :=
  User.mk 3 true (Some (Profile.mk "staff" ["add_sale"]%string)).

(** ** The inventory views *)

(** [PermissionRequiredMixin.test_func] (lines 71-74). *)
Definition test_func (permission_required : option string) (user : User.t) : bool :=
  match permission_required with
  | None => false
  | Some perm => user_has_permission user perm
  end.

(** How a class-based view behind [PermissionRequiredMixin] answers:
    [LoginRequiredMixin] sends an anonymous user to the login page, a
    logged-in user failing [test_func] gets a 403, [get_object] a 404. *)
Inductive ViewResult : Type :=
| LoginRedirect
| PermissionDenied
| NotFound
| RedirectTo (url : string)
| Rendered.

(** [MedicineDeleteView] (lines 229-244) for a POST: the mixins, then
    [get_object] over all medicines, then [post]. *)
Definition MedicineDeleteView (user : User.t) (pk : Z) (db : DB) : ViewResult * DB :=
  if negb (User.is_authenticated user) then (LoginRedirect, db)
  else if negb (test_func (Some "delete_medicine"%string) user) then (PermissionDenied, db)
  else match medicines db !! pk with
       | None => (NotFound, db)
       | Some _ => (RedirectTo "medicine_list", MedicineDeleteView_post pk db)
       end.

(** A staff member who may remove medicines from the inventory. *)
Definition stock_keeper : User.t :=
  User.mk 4 true (Some (Profile.mk "staff" ["delete_medicine"]%string)).

(** ** Accounts, profiles and the staff views *)

Module Account.
(** The columns of [django.contrib.auth.models.User] that the code reads. *)
Record t : Type := mk { username : string; is_superuser : bool }.
End Account.

(** The account tables next to the store. [profiles] is keyed by the user
    key: [Profile.user] is a [OneToOneField(User, on_delete=CASCADE)], and
    a permission is identified with its codename. *)
Record Site : Type := mkSite {
  users : gmap Z Account.t;
  profiles : gmap Z Profile.t;
  next_user_pk : Z;
  store : DB
}.

(** [request.user] of the session of account [pk]. *)
Definition logged_in (site : Site) (pk : Z) : User.t :=
  User.mk pk true (profiles site !! pk).

(** The [post_save] receiver of [User] (models.py, lines 25-39), on the
    profile table. [Profile.objects.create] violates the one-to-one key
    when the user already has a profile; [instance.profile] raises when
    there is none. *)
Definition create_or_update_user_profile
    (pk : Z) (instance : Account.t) (created : bool) (ps : gmap Z Profile.t)
    : exn + gmap Z Profile.t :=
  match (if created
         then match ps !! pk with
              | Some _ => inl (IntegrityError "user_id")
              | None => inr (<[pk := Profile.mk EmptyString []]> ps)
              end
         else inr ps) with
  | inl e => inl e
  | inr ps1 =>
      if Account.is_superuser instance then
        match ps1 !! pk with
        | None => inl DoesNotExist
        | Some p =>
            if bool_decide (Profile.role p ≠ "admin")
            then inr (<[pk := Profile.mk "admin" (Profile.permissions p)]> ps1)
            else inr ps1
        end
      else inr ps1
  end.


(** [user.save()] of an existing account: the row is updated, then the
    receiver runs with [created=False]. *)
Definition User_update (pk : Z) (instance : Account.t) (site : Site) : (exn + unit) * Site :=
  let site1 := mkSite (<[pk := instance]> (users site)) (profiles site)
                      (next_user_pk site) (store site) in
  match create_or_update_user_profile pk instance false (profiles site) with
  | inl e => (inl e, site1)
  | inr ps => (inr tt, mkSite (users site1) ps (next_user_pk site1) (store site1))
  end.


(** [manage_permissions_view] (lines 152-176). [posted] is
    [request.POST.getlist('permissions')] for a POST, [None] for a GET. *)
Definition manage_permissions_view
    (user : User.t) (posted : option (list string)) (user_id : Z) (site : Site)
    : ViewResult * Site :=
  if negb (User.is_authenticated user) then (LoginRedirect, site)
  else if negb (is_admin user) then (LoginRedirect, site)
  else match users site !! user_id, profiles site !! user_id with
       | Some _, Some p =>
           if bool_decide (Profile.role p = "staff" ∨ Profile.role p = "admin") then
             if bool_decide (Profile.role p = "admin")
             then (RedirectTo "manage_staff", site)
             else match posted with
                  | Some permission_ids =>
                      (RedirectTo "manage_staff",
                       mkSite (users site)
                              (<[user_id := Profile.mk (Profile.role p) permission_ids]>
                                 (profiles site))
                              (next_user_pk site) (store site))
                  | None => (Rendered, site)
                  end
           else (NotFound, site)
       | _, _ => (NotFound, site)
       end.

(** [on_delete=SET_NULL] of [Sale.created_by]. *)
Definition forget_creator (uid : Z) (s : Sale.t) : Sale.t :=
  if bool_decide (Sale.created_by s = Some uid)
  then Sale.mk (Sale.created_at s) None (Sale.delivery_fee s) (Sale.total_amount s)
               (Sale.customer_name s) (Sale.customer_phone s) (Sale.customer_address s)
  else s.

(** [staff.delete()]: the user row goes, its profile goes with it
    (CASCADE), and the sales it created lose their creator (SET_NULL). *)
Definition User_delete (uid : Z) (site : Site) : Site :=
  mkSite (delete uid (users site)) (delete uid (profiles site)) (next_user_pk site)
         (set_sales (fmap (forget_creator uid)) (store site)).

(** [delete_staff_view] (lines 134-149). *)
Definition delete_staff_view
    (user : User.t) (is_post : bool) (user_id : Z) (site : Site) : ViewResult * Site :=
  if negb (User.is_authenticated user) then (LoginRedirect, site)
  else if negb (is_admin user) then (LoginRedirect, site)
  else if bool_decide (User.pk user = user_id) then (RedirectTo "manage_staff", site)
  else match users site !! user_id with
       | None => (NotFound, site)
       | Some _ =>
           if is_post then (RedirectTo "manage_staff", User_delete user_id site)
           else (Rendered, site)
       end.

(** A site with the administrator (a superuser) and the clerk, over the
    store left by the first sale. *)
Definition site0 : Site :=
  mkSite (<[1 := Account.mk "root" true]> (<[2 := Account.mk "clerk" false]> ∅))
         (<[1 := Profile.mk "admin" []]>
            (<[2 := Profile.mk "staff" ["add_sale"; "change_sale"]%string]> ∅))
         3 db_A.

(** ** The sales report (views.py, lines 325-356) *)

(** One value of [sales_by_month]. *)
Record MonthGroup : Type := mkGroup {
  group_sales : list (Z * Sale.t);
  monthly_total : Z
}.

(** [sales_by_month] is an [OrderedDict]: the keys in insertion order, each
    with its value. *)
Definition od_mem (k : Z) (d : list (Z * MonthGroup)) : bool :=
  bool_decide (k ∈ d.*1).

(** In-place update of the value stored under [k]. *)
Fixpoint od_alter (f : MonthGroup → MonthGroup) (k : Z) (d : list (Z * MonthGroup))
    : list (Z * MonthGroup) :=
  match d with
  | [] => []
  | kg :: d' =>
      if decide (kg.1 = k) then (kg.1, f kg.2) :: d' else kg :: od_alter f k d'
  end.

(** Lines 339-348: the body of the loop over [sales_query]. [month_start]
    stands for [created_at.date().replace(day=1)]. *)
Definition report_sale (month_start : Z → Z) (sales_by_month : list (Z * MonthGroup))
    (sale : Z * Sale.t) : list (Z * MonthGroup) :=
  let month := month_start (Sale.created_at sale.2) in
  let d1 := if od_mem month sales_by_month then sales_by_month
            else sales_by_month ++ [(month, mkGroup [] 0)] in
  let d2 := od_alter (λ g, mkGroup (group_sales g ++ [sale]) (monthly_total g)) month d1 in
  od_alter (λ g, mkGroup (group_sales g) (monthly_total g + Sale.total_amount sale.2))
           month d2.

Definition sales_by_month (month_start : Z → Z) (sales_query : list (Z * Sale.t))
    : list (Z * MonthGroup) :=
  fold_left (report_sale month_start) sales_query [].

(** [aggregate(total=Sum('total_amount'))['total'] or 0] *)
Definition total_revenue (sales_query : list (Z * Sale.t)) : Z :=
  foldr (λ sale acc, Sale.total_amount sale.2 + acc) 0 sales_query.

(** The order of [order_by('-created_at')]: latest first. *)
Definition later_first (a b : Z * Sale.t) : Prop :=
  Sale.created_at b.2 ≤ Sale.created_at a.2.

#[global] Instance later_first_dec : RelDecision later_first :=
  λ a b, decide (Sale.created_at b.2 ≤ Sale.created_at a.2).

(** [Sale.objects.all().order_by('-created_at')]. *)
Definition sales_query (db : DB) : list (Z * Sale.t) :=
  merge_sort later_first (map_to_list (sales db)).

Inductive ReportResponse : Type :=
| ReportRedirect (to : string)
| ReportPage (sales_by_month : list (Z * MonthGroup)) (total_revenue : Z).

Definition sales_report_view (month_start : Z → Z) (user : User.t) (db : DB)
    : ReportResponse :=
  if negb (User.is_authenticated user) then ReportRedirect "/login/"
  else if negb (user_has_permission user "view_sale") then ReportRedirect "dashboard"
  else ReportPage (sales_by_month month_start (sales_query db))
                  (total_revenue (sales_query db)).

(** Sum of the monthly totals shown on the report. *)
Definition sum_monthly (d : list (Z * MonthGroup)) : Z :=
  foldr (λ kg acc, monthly_total kg.2 + acc) 0 d.

(** The month of a row of the query. *)
Definition month_of (month_start : Z → Z) (sale : Z * Sale.t) : Z :=
  month_start (Sale.created_at sale.2).

(** [d] is the grouping by month of the rows [done]: one entry per month
    that occurs, each with the rows of that month in query order and their
    total. *)
Definition groups_of (month_start : Z → Z) (done : list (Z * Sale.t))
    (d : list (Z * MonthGroup)) : Prop :=
  NoDup d.*1
  ∧ Forall (λ kg, group_sales kg.2
                  = filter (λ s, month_of month_start s = kg.1) done
                  ∧ monthly_total kg.2 = total_revenue (group_sales kg.2)
                  ∧ group_sales kg.2 ≠ []) d
  ∧ ∀ s, s ∈ done → month_of month_start s ∈ d.*1.

(** A user who may read the report. *)
Definition auditor : User.t :=
  User.mk 5 true (Some (Profile.mk "staff" ["view_sale"]%string)).

(** The store after a second sale (one unit of B at time 12) and the amend
    of the first; months are taken to be ten time units long. *)
Definition db_R : DB :=
  (pos_view request_amend
     (pos_view (post clerk (body [mkLine 2 1 100] 0 None) 12) db_A).2).2.
Definition decade (t : Z) : Z := t / 10 * 10.

(** Three units of A, then five of B (stock 2). *)
Definition data_AB : Data := body [mkLine 1 3 500; mkLine 2 5 100] 0 None.
Definition request_AB : Request := post clerk data_AB 8.

(** One unit of a medicine that does not exist, then five of B (stock 2). *)
Definition data_missing : Data := body [mkLine 99 1 100; mkLine 2 5 100] 0 None.
Definition request_missing : Request := post clerk data_missing 8.

(** * Properties *)

(** ** The monad *)

Section Monad.
Context {A B : Type}.

Lemma bind_ok (m : M A) (k : A → M B) db b db' :
  bind m k db = (inr b, db') ↔
  ∃ a db1, m db = (inr a, db1) ∧ k a db1 = (inr b, db').
Proof.
  unfold bind. split.
  - destruct (m db) as [[e|a] db1] eqn:E; [discriminate | eauto].
  - intros (a & db1 & -> & H). exact H.
Qed.

Lemma bind_err (m : M A) (k : A → M B) db e db' :
  bind m k db = (inl e, db') ↔
  m db = (inl e, db') ∨ ∃ a db1, m db = (inr a, db1) ∧ k a db1 = (inl e, db').
Proof.
  unfold bind. split.
  - destruct (m db) as [[e1|a] db1] eqn:E; [left; congruence | right; eauto].
  - intros [-> | (a & db1 & -> & H)]; [reflexivity | exact H].
Qed.

Lemma atomic_ok (m : M A) db a db' :
  atomic m db = (inr a, db') ↔ m db = (inr a, db').
Proof.
  unfold atomic. destruct (m db) as [[e|a1] db1]; split; congruence.
Qed.

Lemma atomic_err (m : M A) db e db' :
  atomic m db = (inl e, db') ↔ db' = db ∧ ∃ db1, m db = (inl e, db1).
Proof.
  unfold atomic. destruct (m db) as [[e1|a1] db1]; split.
  - intros [= -> ->]. eauto.
  - intros [-> [db2 [= -> ->]]]. reflexivity.
  - discriminate.
  - intros [_ [db2 ?]]. discriminate.
Qed.
End Monad.

Lemma set_quantity_same m : Medicine.set_quantity (Medicine.quantity m) m = m.
Proof. by destruct m. Qed.

Lemma moved_0 m : moved 0 m = m.
Proof. unfold moved. rewrite Z.add_0_r. apply set_quantity_same. Qed.

Lemma moved_moved a b m : moved a (moved b m) = moved (b + a) m.
Proof. destruct m. unfold moved. simpl. by rewrite Z.add_assoc. Qed.

Lemma quantity_moved d m : Medicine.quantity (moved d m) = Medicine.quantity m + d.
Proof. reflexivity. Qed.

(** ** One cart line *)

Lemma sell_line_ok pk l db db' :
  sell_line pk l db = (inr tt, db') ↔
  ∃ m, medicines db !! id l = Some m
       ∧ 0 ≤ quantity l ≤ Medicine.quantity m
       ∧ storable_line l = true
       ∧ db' = mkDB (<[id l := moved (- quantity l) m]> (medicines db)) (sales db)
                    (items db ++ [SaleItem.mk (next_item_pk db) pk (id l)
                                              (quantity l) (price l)])
                    (next_sale_pk db) (next_item_pk db + 1).
Proof.
  unfold sell_line, bind, Medicine_objects_get, SaleItem_objects_create,
    save_quantity_F, raise, storable_line.
  destruct (medicines db !! id l) as [m|] eqn:Hm; simpl.
  - destruct (Z.ltb_spec (Medicine.quantity m) (quantity l)); simpl.
    + split; [discriminate | intros (m' & [= <-] & ? & _); lia].
    + destruct (in_column (quantity l) && in_column (price l)) eqn:Hcol; simpl.
      2: { split; [discriminate | intros (m' & _ & _ & ? & _); discriminate]. }
      destruct (Z.ltb_spec (quantity l) 0); simpl.
      * split; [discriminate | intros (m' & [= <-] & ? & _); lia].
      * rewrite Hm. simpl.
        destruct (Z.ltb_spec (Medicine.quantity m + - quantity l) 0); [lia|].
        split.
        -- intros [= <-]. exists m. split; [done|]. split; [lia|]. by split.
        -- intros (m' & [= <-] & _ & _ & ->). reflexivity.
  - split; [discriminate | intros (m' & [=] & _)].
Qed.

(** A line that raises has written nothing. *)
Lemma sell_line_err pk l db e db1 :
  sell_line pk l db = (inl e, db1) → db1 = db.
Proof.
  unfold sell_line, bind, Medicine_objects_get, SaleItem_objects_create,
    save_quantity_F, raise.
  destruct (medicines db !! id l) as [m|] eqn:Hm; simpl.
  - destruct (Z.ltb_spec (Medicine.quantity m) (quantity l)); simpl.
    + by intros [= <- <-].
    + destruct (in_column (quantity l) && in_column (price l)); simpl;
        [|by intros [= <- <-]].
      destruct (Z.ltb_spec (quantity l) 0); simpl; [by intros [= <- <-]|].
      rewrite Hm. simpl.
      destruct (Z.ltb_spec (Medicine.quantity m + - quantity l) 0); [lia|].
      discriminate.
  - by intros [= <- <-].
Qed.

(** ** The cart loop *)

Lemma requested_app m a b : requested m (a ++ b) = requested m a + requested m b.
Proof. induction a as [|l a IH]; simpl; [done | rewrite IH; lia]. Qed.


Lemma for_each_app {A} (body : A → M unit) l1 l2 db :
  for_each body (l1 ++ l2) db =
  match for_each body l1 db with
  | (inl e, db1) => (inl e, db1)
  | (inr _, db1) => for_each body l2 db1
  end.
Proof.
  revert db. induction l1 as [|x l1 IH]; intros db; simpl; [done|].
  unfold bind. destruct (body x db) as [[e|[]] db1]; [done | apply IH].
Qed.

(** What a completed cart loop has done to the store. *)
Lemma sell_loop_ok pk c : ∀ db db',
  for_each (sell_line pk) c db = (inr tt, db') →
  (∀ m, medicines db' !! m = moved (- requested m c) <$> medicines db !! m)
  ∧ sales db' = sales db
  ∧ items db' = items db ++ line_items pk (next_item_pk db) c
  ∧ next_sale_pk db' = next_sale_pk db
  ∧ next_item_pk db' = next_item_pk db + Z.of_nat (length c)
  ∧ Forall (λ l, 0 ≤ quantity l) c.
Proof.
  induction c as [|l c IH]; intros db db'; simpl.
  - intros [= <-]. repeat split; auto.
    + intros m. destruct (medicines db !! m) as [x|]; simpl; [|done].
      by rewrite moved_0.
    + by rewrite app_nil_r.
    + lia.
  - intros H. apply bind_ok in H as ([] & db1 & H1 & H2).
    apply sell_line_ok in H1 as (m0 & Hm0 & Hq & Hst & ->).
    apply IH in H2 as (Hmed & Hsales & Hitems & Hns & Hni & Hall). simpl in *.
    repeat split; auto.
    + intros m. rewrite Hmed. destruct (decide (id l = m)) as [<-|Hne].
      * rewrite lookup_insert_eq, Hm0. simpl. rewrite moved_moved.
        do 2 f_equal. lia.
      * rewrite lookup_insert_ne by done.
        destruct (medicines db !! m); simpl; [|done]. do 2 f_equal.
    + by rewrite Hitems, <- app_assoc.
    + lia.
    + constructor; [lia | done].
Qed.

(** A cart that fits the stock goes through. *)
Lemma sell_loop_fits pk ms0 c : ∀ seen db,
  (∀ m, medicines db !! m = moved (- requested m seen) <$> ms0 !! m) →
  cart_fits ms0 seen c = true →
  forallb storable_line c = true →
  ∃ db', for_each (sell_line pk) c db = (inr tt, db').
Proof.
  induction c as [|l c IH]; intros seen db Hrel Hfit Hsto; simpl in *.
  - eexists. reflexivity.
  - destruct (ms0 !! id l) as [m0|] eqn:Hm0; [|discriminate].
    apply andb_prop in Hsto as [Hstl Hsto].
    apply andb_prop in Hfit as [Hfit Hrest]. apply andb_prop in Hfit as [Hq Hle].
    apply Z.leb_le in Hq, Hle.
    pose proof (Hrel (id l)) as Hl. rewrite Hm0 in Hl. simpl in Hl.
    destruct (IH (seen ++ [l])
                (mkDB (<[id l := moved (- quantity l) (moved (- requested (id l) seen) m0)]>
                         (medicines db)) (sales db)
                      (items db ++ [SaleItem.mk (next_item_pk db) pk (id l)
                                                (quantity l) (price l)])
                      (next_sale_pk db) (next_item_pk db + 1))) as [db' Hdb'];
      [|done|done|].
    + intros m. simpl. rewrite requested_app. simpl.
      destruct (decide (id l = m)) as [<-|Hne].
      * rewrite lookup_insert_eq, Hm0. simpl. rewrite moved_moved.
        do 2 f_equal. lia.
      * rewrite lookup_insert_ne, Hrel by done.
        destruct (ms0 !! m); simpl; [|done]. do 2 f_equal. lia.
    + exists db'. apply bind_ok. eexists tt, _. split; [|exact Hdb'].
      apply sell_line_ok. eexists. split; [exact Hl|]. split; [|done].
      rewrite quantity_moved. lia.
Qed.

(** The lines of a cart loop that completed fit their columns. *)
Lemma sell_loop_ok_storable pk c : ∀ db db',
  for_each (sell_line pk) c db = (inr tt, db') →
  forallb storable_line c = true.
Proof.
  induction c as [|l c IH]; intros db db' H; simpl in *; [done|].
  apply bind_ok in H as ([] & db1 & H1 & H2).
  apply sell_line_ok in H1 as (m0 & _ & _ & Hst & _).
  rewrite Hst. simpl. by apply (IH _ _ H2).
Qed.

(** A cart loop that raises does so at a first offending line, the lines
    before it having been carried out. *)
Lemma sell_loop_err pk c : ∀ db e db1,
  for_each (sell_line pk) c db = (inl e, db1) →
  ∃ pre l post,
    c = pre ++ l :: post
    ∧ for_each (sell_line pk) pre db = (inr tt, db1)
    ∧ sell_line pk l db1 = (inl e, db1).
Proof.
  induction c as [|l c IH]; intros db e db1; simpl; [discriminate|].
  intros H. apply bind_err in H as [H | ([] & db2 & H1 & H2)].
  - pose proof (sell_line_err _ _ _ _ _ H) as ->.
    exists [], l, c. auto.
  - apply IH in H2 as (pre & l' & post & -> & Hpre & Hl').
    exists (l :: pre), l', post. repeat split; [|done].
    simpl. apply bind_ok. eauto.
Qed.

Lemma sell_loop_raises pk pre l post db dbm e :
  for_each (sell_line pk) pre db = (inr tt, dbm) →
  sell_line pk l dbm = (inl e, dbm) →
  for_each (sell_line pk) (pre ++ l :: post) db = (inl e, dbm).
Proof.
  intros Hpre Hl. rewrite for_each_app, Hpre. simpl. unfold bind. by rewrite Hl.
Qed.

(** ** The restoration loop *)

Lemma restore_item_ok i db db' :
  restore_item i db = (inr tt, db') ↔
  ∃ m, medicines db !! SaleItem.medicine i = Some m
       ∧ 0 ≤ Medicine.quantity m + SaleItem.quantity i
       ∧ db' = set_medicines <[SaleItem.medicine i := moved (SaleItem.quantity i) m]> db.
Proof.
  unfold restore_item, bind, Medicine_objects_get, save_quantity_F.
  destruct (medicines db !! SaleItem.medicine i) as [m|] eqn:Hm; simpl.
  - rewrite Hm.
    destruct (Z.ltb_spec (Medicine.quantity m + SaleItem.quantity i) 0).
    + split; [discriminate | intros (m' & [= <-] & ? & _); lia].
    + split.
      * intros [= <-]. eauto.
      * intros (m' & [= <-] & _ & ->). reflexivity.
  - split; [discriminate | intros (m' & [=] & _)].
Qed.

Lemma restore_loop_ok its : ∀ db db',
  for_each restore_item its db = (inr tt, db') →
  (∀ m, medicines db' !! m = moved (held m its) <$> medicines db !! m)
  ∧ sales db' = sales db
  ∧ items db' = items db
  ∧ next_sale_pk db' = next_sale_pk db
  ∧ next_item_pk db' = next_item_pk db.
Proof.
  induction its as [|i its IH]; intros db db'; simpl.
  - intros [= <-]. repeat split; auto.
    intros m. destruct (medicines db !! m) as [x|]; simpl; [|done].
    by rewrite moved_0.
  - intros H. apply bind_ok in H as ([] & db1 & H1 & H2).
    apply restore_item_ok in H1 as (m0 & Hm0 & Hq & ->).
    apply IH in H2 as (Hmed & Hsales & Hitems & Hns & Hni). simpl in *.
    repeat split; auto.
    intros m. rewrite Hmed. destruct (decide (SaleItem.medicine i = m)) as [<-|Hne].
    + rewrite lookup_insert_eq, Hm0. simpl. by rewrite moved_moved.
    + rewrite lookup_insert_ne by done.
      destruct (medicines db !! m); simpl; [|done]. do 2 f_equal.
Qed.

(** ** Item lists *)

Lemma items_of_line_items pk first c :
  items_of pk (line_items pk first c) = line_items pk first c.
Proof.
  revert first. induction c as [|l c IH]; intros first; simpl; [done|].
  unfold items_of in *. rewrite filter_cons_True by done. by rewrite IH.
Qed.

Lemma items_of_other pk pk' first c :
  pk ≠ pk' → items_of pk' (line_items pk first c) = [].
Proof.
  intros Hne. revert first. induction c as [|l c IH]; intros first; simpl; [done|].
  unfold items_of in *. rewrite filter_cons_False by done. apply IH.
Qed.

Lemma sum_subtotals_line_items pk first c :
  sum_subtotals (line_items pk first c) = cart_total c.
Proof.
  revert first. induction c as [|l c IH]; intros first; simpl; [done|].
  unfold sum_subtotals in *. simpl. by rewrite IH.
Qed.


Lemma items_of_fresh db :
  wf_db db = true → items_of (next_sale_pk db) (items db) = [].
Proof.
  unfold wf_db, items_of. generalize (next_sale_pk db) as n.
  induction (items db) as [|i l IH]; intros n H; simpl in *; [done|].
  apply andb_prop in H as [Hi Hl]. apply Z.ltb_lt in Hi.
  rewrite filter_cons_False by lia. by apply IH.
Qed.

Lemma items_of_deleted pk l :
  items_of pk (filter (λ i, SaleItem.sale i ≠ pk) l) = [].
Proof.
  unfold items_of. induction l as [|i l IH]; [done|].
  destruct (decide (SaleItem.sale i = pk)).
  - rewrite filter_cons_False by tauto. exact IH.
  - rewrite filter_cons_True by done. rewrite filter_cons_False by done. exact IH.
Qed.

(** ** Opening the sale (lines 272-287) *)

Lemma in_column_0 : in_column 0 = true.
Proof. reflexivity. Qed.

Lemma Sale_save_ok pk s db db' :
  Sale_save pk s db = (inr tt, db') ↔
  in_column (Sale.delivery_fee s) = true
  ∧ in_column (Sale.total_amount s) = true
  ∧ db' = set_sales <[pk := s]> db.
Proof.
  unfold Sale_save.
  destruct (in_column (Sale.delivery_fee s)); simpl;
    [destruct (in_column (Sale.total_amount s)); simpl|].
  - split; [intros [= <-]; auto | intros (_ & _ & ->); done].
  - split; [discriminate | intros (_ & ? & _); discriminate].
  - split; [discriminate | intros (? & _); discriminate].
Qed.

Lemma update_total_ok pk s db db' :
  update_total pk s db = (inr tt, db') ↔
  in_column (Sale.delivery_fee s) = true
  ∧ in_column (sum_subtotals (items_of pk (items db)) + Sale.delivery_fee s) = true
  ∧ db' = set_sales <[pk := final_sale (Sale.delivery_fee s)
                                       (items_of pk (items db)) s]> db.
Proof.
  unfold update_total, bind, items_all. apply Sale_save_ok.
Qed.

Lemma open_sale_apply user data now db :
  amend_target user data = None →
  in_column (delivery_fee data) = true →
  open_sale user data now db =
  (inr (next_sale_pk db, assign_fields user data (Sale.fresh now)),
   mkDB (medicines db)
        (<[next_sale_pk db := assign_fields user data (Sale.fresh now)]> (sales db))
        (items db) (next_sale_pk db + 1) (next_item_pk db)).
Proof.
  intros Hmode Hfee. unfold open_sale. rewrite Hmode.
  unfold bind, Sale_objects_create, Sale_save, set_sales, ret. simpl.
  rewrite Hfee. simpl. by rewrite insert_insert_eq.
Qed.

Lemma open_sale_apply_ok user data now db ps db1 :
  amend_target user data = None →
  open_sale user data now db = (inr ps, db1) →
  in_column (delivery_fee data) = true
  ∧ ps = (next_sale_pk db, assign_fields user data (Sale.fresh now))
  ∧ db1 = mkDB (medicines db)
               (<[next_sale_pk db := assign_fields user data (Sale.fresh now)]>
                  (sales db))
               (items db) (next_sale_pk db + 1) (next_item_pk db).
Proof.
  intros Hmode H.
  destruct (in_column (delivery_fee data)) eqn:Hfee.
  - rewrite (open_sale_apply _ _ _ _ Hmode Hfee) in H. by injection H as <- <-.
  - unfold open_sale in H. rewrite Hmode in H.
    unfold bind, Sale_objects_create, Sale_save in H. simpl in H.
    rewrite Hfee in H. discriminate.
Qed.

Lemma open_sale_amend_ok user data now db target ps db1 :
  amend_target user data = Some target →
  open_sale user data now db = (inr ps, db1) →
  ∃ old,
    sales db !! target = Some old
    ∧ ps = (target, assign_fields user data old)
    ∧ (∀ m, medicines db1 !! m
            = moved (held m (items_of target (items db))) <$> medicines db !! m)
    ∧ sales db1 = <[target := assign_fields user data old]> (sales db)
    ∧ items db1 = filter (λ i, SaleItem.sale i ≠ target) (items db)
    ∧ next_sale_pk db1 = next_sale_pk db
    ∧ next_item_pk db1 = next_item_pk db.
Proof.
  intros Hmode. unfold open_sale. rewrite Hmode. intros H.
  apply bind_ok in H as ([pk sale] & db2 & H & Hsave).
  apply bind_ok in H as (old & db3 & Hget & H).
  unfold get_object_or_404 in Hget.
  destruct (sales db !! target) as [old'|] eqn:Hold; [|discriminate].
  injection Hget as <- <-.
  apply bind_ok in H as (its & db4 & Hall & H). injection Hall as <- <-.
  apply bind_ok in H as ([] & db5 & Hloop & H).
  apply restore_loop_ok in Hloop as (Hmed & Hsales & Hitems & Hns & Hni).
  unfold bind, items_delete, ret in H. injection H as <- <- <-.
  apply bind_ok in Hsave as ([] & db6 & Hsave & Hret).
  apply Sale_save_ok in Hsave as (_ & _ & ->). injection Hret as <- <-.
  exists old'. simpl. rewrite Hsales, Hitems. repeat split; auto.
Qed.

(** A sale that was opened has a delivery fee that fits its column. *)
Lemma open_sale_ok_fee user data now db ps db1 :
  open_sale user data now db = (inr ps, db1) →
  in_column (delivery_fee data) = true
  ∧ Sale.delivery_fee ps.2 = delivery_fee data.
Proof.
  unfold open_sale. intros H. apply bind_ok in H as (ps0 & db2 & _ & H).
  apply bind_ok in H as ([] & db3 & Hsave & Hret).
  apply Sale_save_ok in Hsave as (Hfee & _). injection Hret as <- <-. by split.
Qed.

(** ** The whole transaction *)

(** Effect of a completed transaction that creates a sale. *)
Lemma transaction_apply_ok user data now db pk db' :
  amend_target user data = None →
  sale_transaction user data now db = (inr pk, db') →
  pk = next_sale_pk db
  ∧ (∀ m, medicines db' !! m = moved (- requested m (cart data)) <$> medicines db !! m)
  ∧ items db' = items db ++ line_items pk (next_item_pk db) (cart data)
  ∧ sales db' = <[pk := final_sale (delivery_fee data) (items_of pk (items db'))
                          (assign_fields user data (Sale.fresh now))]> (sales db)
  ∧ next_sale_pk db' = next_sale_pk db + 1
  ∧ next_item_pk db' = next_item_pk db + Z.of_nat (length (cart data))
  ∧ Forall (λ l, 0 ≤ quantity l) (cart data).
Proof.
  intros Hmode H. unfold sale_transaction in H.
  apply bind_ok in H as (ps & db1 & Hopen & H).
  destruct (open_sale_apply_ok _ _ _ _ _ _ Hmode Hopen) as (_ & -> & ->).
  simpl in H. apply bind_ok in H as ([] & db2 & Hloop & H).
  apply sell_loop_ok in Hloop as (Hmed & Hsales & Hitems & Hns & Hni & Hall).
  simpl in *.
  apply bind_ok in H as ([] & db3 & Hupd & Hret).
  apply update_total_ok in Hupd as (_ & _ & ->). injection Hret as <- <-. simpl.
  rewrite Hsales, insert_insert_eq. repeat split; auto.
Qed.

(** Effect of a completed transaction that amends sale [target]. *)
Lemma transaction_amend_ok user data now db target pk db' :
  amend_target user data = Some target →
  sale_transaction user data now db = (inr pk, db') →
  pk = target
  ∧ ∃ old,
      sales db !! target = Some old
      ∧ (∀ m, medicines db' !! m
              = moved (held m (items_of target (items db)) - requested m (cart data))
                  <$> medicines db !! m)
      ∧ items db' = filter (λ i, SaleItem.sale i ≠ target) (items db)
                    ++ line_items target (next_item_pk db) (cart data)
      ∧ sales db' = <[target := final_sale (delivery_fee data)
                                   (items_of target (items db'))
                                   (assign_fields user data old)]> (sales db)
      ∧ next_sale_pk db' = next_sale_pk db
      ∧ Forall (λ l, 0 ≤ quantity l) (cart data).
Proof.
  intros Hmode H. unfold sale_transaction in H.
  apply bind_ok in H as (ps & db1 & Hopen & H).
  destruct (open_sale_amend_ok _ _ _ _ _ _ _ Hmode Hopen)
    as (old & Hold & -> & Hmed1 & Hsales1 & Hitems1 & Hns1 & Hni1).
  simpl in H. apply bind_ok in H as ([] & db2 & Hloop & H).
  apply sell_loop_ok in Hloop as (Hmed & Hsales & Hitems & Hns & Hni & Hall).
  apply bind_ok in H as ([] & db3 & Hupd & Hret).
  apply update_total_ok in Hupd as (_ & _ & ->). injection Hret as <- <-.
  simpl. split; [done|]. exists old.
  rewrite Hsales, Hsales1, insert_insert_eq, Hitems, Hitems1, Hni1, Hns, Hns1.
  repeat split; auto.
  intros m. rewrite Hmed, Hmed1.
  destruct (medicines db !! m) as [x|]; simpl; [|done].
  rewrite moved_moved. do 2 f_equal.
Qed.

(** The integers of a completed transaction fit their columns. *)
Lemma sale_transaction_storable user data now db pk db' :
  sale_transaction user data now db = (inr pk, db') →
  in_column (delivery_fee data) = true
  ∧ forallb storable_line (cart data) = true
  ∧ in_column (sum_subtotals (items_of pk (items db')) + delivery_fee data) = true.
Proof.
  intros H. unfold sale_transaction in H.
  apply bind_ok in H as (ps & db1 & Hopen & H).
  destruct (open_sale_ok_fee _ _ _ _ _ _ Hopen) as [Hfee Hfee'].
  apply bind_ok in H as ([] & db2 & Hloop & H).
  pose proof (sell_loop_ok_storable _ _ _ _ Hloop) as Hsto.
  apply bind_ok in H as ([] & db3 & Hupd & Hret).
  apply update_total_ok in Hupd as (_ & Htot & ->). injection Hret as <- <-.
  simpl. rewrite Hfee' in Htot. auto.
Qed.

(** A cart that fits the stock, with integers that fit their columns, makes
    the creating transaction complete. *)
Lemma transaction_apply_fits user data now db :
  amend_target user data = None →
  wf_db db = true →
  cart_fits (medicines db) [] (cart data) = true →
  storable data = true →
  ∃ db', sale_transaction user data now db = (inr (next_sale_pk db), db').
Proof.
  intros Hmode Hwf Hfit Hsto. unfold storable in Hsto.
  apply andb_prop in Hsto as [Hsto Htot]. apply andb_prop in Hsto as [Hfee Hlines].
  unfold sale_transaction.
  destruct (sell_loop_fits (next_sale_pk db) (medicines db) (cart data) []
              (mkDB (medicines db)
                 (<[next_sale_pk db := assign_fields user data (Sale.fresh now)]> (sales db))
                 (items db) (next_sale_pk db + 1) (next_item_pk db)))
    as [db2 Hloop]; [|done|done|].
  - intros m. simpl. destruct (medicines db !! m); simpl; [|done].
    by rewrite moved_0.
  - destruct (sell_loop_ok _ _ _ _ Hloop) as (_ & _ & Hitems & _). simpl in Hitems.
    eexists. apply bind_ok. eexists _, _.
    split; [by apply open_sale_apply|].
    simpl. apply bind_ok. eexists tt, _. split; [exact Hloop|].
    apply bind_ok. eexists tt, _. split; [|reflexivity].
    apply update_total_ok. simpl. split; [done|]. split; [|reflexivity].
    rewrite Hitems. unfold items_of. rewrite filter_app.
    fold (items_of (next_sale_pk db) (items db)). rewrite (items_of_fresh _ Hwf).
    fold (items_of (next_sale_pk db)
            (line_items (next_sale_pk db) (next_item_pk db) (cart data))).
    rewrite items_of_line_items. simpl. rewrite sum_subtotals_line_items. exact Htot.
Qed.

(** ** The view *)

Lemma pos_view_post request data db :
  may_post request data →
  pos_view request db =
  match atomic (sale_transaction (user request) data (now request)) db with
  | (inr pk, db') => (JsonSuccess pk, db')
  | (inl e, db') => (JsonError e, db')
  end.
Proof. intros (Ha & Hp & Hm). unfold pos_view. by rewrite Ha, Hp, Hm. Qed.

Lemma pos_view_success request data db pk db' :
  may_post request data →
  pos_view request db = (JsonSuccess pk, db') ↔
  sale_transaction (user request) data (now request) db = (inr pk, db').
Proof.
  intros Hpost. rewrite (pos_view_post _ _ _ Hpost). unfold atomic.
  destruct (sale_transaction _ _ _ db) as [[e|pk1] db1]; split; congruence.
Qed.

Lemma pos_view_error request data db e db' :
  may_post request data →
  pos_view request db = (JsonError e, db') ↔
  db' = db ∧ ∃ db1, sale_transaction (user request) data (now request) db = (inl e, db1).
Proof.
  intros Hpost. rewrite (pos_view_post _ _ _ Hpost). unfold atomic.
  destruct (sale_transaction _ _ _ db) as [[e1|pk1] db1]; split.
  - intros [= -> ->]. eauto.
  - intros [-> [db2 [= -> ->]]]. reflexivity.
  - discriminate.
  - intros [_ [db2 ?]]. discriminate.
Qed.

(** Whatever the request, the response is a success or the store is left
    exactly as it was. *)
Lemma pos_view_unchanged request db :
  (∃ pk, (pos_view request db).1 = JsonSuccess pk) ∨ (pos_view request db).2 = db.
Proof.
  unfold pos_view.
  destruct (negb (User.is_authenticated (user request))); [by right|].
  destruct (negb (user_has_permission (user request) "add_sale")); [by right|].
  destruct (method request) as [sid|data]; [by right|].
  unfold atomic.
  destruct (sale_transaction _ _ _ db) as [[e|pk] db1]; simpl; eauto.
Qed.

Lemma pos_view_post_cases request data db :
  may_post request data →
  (∃ pk db', pos_view request db = (JsonSuccess pk, db'))
  ∨ (∃ e, pos_view request db = (JsonError e, db)).
Proof.
  intros Hpost. rewrite (pos_view_post _ _ _ Hpost). unfold atomic.
  destruct (sale_transaction _ _ _ db) as [[e|pk] db1]; eauto.
Qed.

(** ** Carts that fit *)

Lemma requested_nonneg m c :
  Forall (λ l, 0 ≤ quantity l) c → 0 ≤ requested m c.
Proof.
  induction 1 as [|l c Hl _ IH]; simpl; [done|]. destruct (decide (id l = m)); lia.
Qed.

Lemma requested_absent m c :
  Forall (λ l, id l ≠ m) c → requested m c = 0.
Proof.
  induction 1 as [|l c Hl _ IH]; simpl; [done|].
  rewrite decide_False by done. lia.
Qed.

Lemma cart_fits_within (ms : gmap Z Medicine.t) c : ∀ seen,
  cart_fits ms seen c = true →
  Forall (λ l, 0 ≤ quantity l
               ∧ ∃ med, ms !! id l = Some med
                        ∧ requested (id l) (seen ++ c) ≤ Medicine.quantity med) c.
Proof.
  induction c as [|l c IH]; intros seen H; simpl in *; [constructor|].
  destruct (ms !! id l) as [med|] eqn:Hmed; [|discriminate].
  apply andb_prop in H as [H Hrest]. apply andb_prop in H as [Hq Hle].
  apply Z.leb_le in Hq, Hle. apply IH in Hrest.
  rewrite <- app_assoc in Hrest. simpl in Hrest.
  constructor; [|exact Hrest]. split; [done|]. exists med. split; [done|].
  destruct (decide (Exists (λ l2, id l2 = id l) c)) as [Hex|Hno].
  - apply Exists_exists in Hex as (l2 & Hin & Hid).
    rewrite Forall_forall in Hrest.
    destruct (Hrest l2 Hin) as (_ & med2 & Hmed2 & Hle2).
    rewrite Hid in Hmed2, Hle2. congruence.
  - apply not_Exists_Forall in Hno; [|intros ?; apply _].
    rewrite requested_app. simpl. rewrite decide_True by done.
    rewrite (requested_absent (id l) c); [lia|].
    eapply Forall_impl; [exact Hno|]. simpl. auto.
Qed.

Lemma within_cart_fits (ms : gmap Z Medicine.t) c : ∀ seen,
  Forall (λ l, 0 ≤ quantity l
               ∧ ∃ med, ms !! id l = Some med
                        ∧ requested (id l) (seen ++ c) ≤ Medicine.quantity med) c →
  cart_fits ms seen c = true.
Proof.
  induction c as [|l c IH]; intros seen H; simpl; [done|].
  inversion H as [|l' c' (Hq & med & Hmed & Hle) Hrest]; subst.
  rewrite Hmed.
  assert (0 ≤ requested (id l) c).
  { apply requested_nonneg. eapply Forall_impl; [exact Hrest|]. simpl. tauto. }
  rewrite requested_app in Hle. simpl in Hle. rewrite decide_True in Hle by done.
  repeat (apply andb_true_intro; split); try apply Z.leb_le; try lia.
  apply IH. rewrite <- app_assoc. exact Hrest.
Qed.

Lemma cart_fits_iff_within (ms : gmap Z Medicine.t) c :
  cart_fits ms [] c = true
  ↔ within_stock (λ m, Medicine.quantity <$> ms !! m) c.
Proof.
  unfold within_stock. split.
  - intros H. apply cart_fits_within in H. simpl in H.
    eapply Forall_impl; [exact H|]. simpl.
    intros l (Hq & med & Hmed & Hle). split; [done|].
    exists (Medicine.quantity med). by rewrite Hmed.
  - intros H. apply within_cart_fits. simpl.
    eapply Forall_impl; [exact H|]. simpl.
    intros l (Hq & a & Ha & Hle). split; [done|].
    destruct (ms !! id l) as [med|]; [|discriminate].
    injection Ha as <-. eauto.
Qed.

(** A cart loop that completes was run on a cart that fits. *)
Lemma sell_loop_ok_fits pk ms0 c : ∀ seen db db',
  (∀ m, medicines db !! m = moved (- requested m seen) <$> ms0 !! m) →
  for_each (sell_line pk) c db = (inr tt, db') →
  cart_fits ms0 seen c = true.
Proof.
  induction c as [|l c IH]; intros seen db db' Hrel H; simpl in *; [done|].
  apply bind_ok in H as ([] & db1 & H1 & H2).
  apply sell_line_ok in H1 as (m0 & Hm0 & Hq & Hst & ->).
  pose proof (Hrel (id l)) as Hl. rewrite Hm0 in Hl.
  destruct (ms0 !! id l) as [med0|] eqn:Hmed0; [|discriminate].
  simpl in Hl. injection Hl as ->. rewrite quantity_moved in Hq.
  repeat (apply andb_true_intro; split); try apply Z.leb_le; try lia.
  eapply IH; [|exact H2].
  intros m. simpl. rewrite requested_app. simpl.
  destruct (decide (id l = m)) as [<-|Hne].
  - rewrite lookup_insert_eq, Hmed0. simpl. rewrite moved_moved.
    do 2 f_equal. lia.
  - rewrite lookup_insert_ne, Hrel by done.
    destruct (ms0 !! m); simpl; [|done]. do 2 f_equal. lia.
Qed.

Lemma loop_rel_start (ms : gmap Z Medicine.t) m :
  ms !! m = moved (- requested m []) <$> ms !! m.
Proof. simpl. destruct (ms !! m); simpl; [|done]. by rewrite moved_0. Qed.

Lemma transaction_apply_needs_fit user data now db pk db' :
  amend_target user data = None →
  sale_transaction user data now db = (inr pk, db') →
  cart_fits (medicines db) [] (cart data) = true.
Proof.
  intros Hmode H. unfold sale_transaction in H.
  apply bind_ok in H as (ps & db1 & Hopen & H).
  destruct (open_sale_apply_ok _ _ _ _ _ _ Hmode Hopen) as (_ & -> & ->).
  simpl in H. apply bind_ok in H as ([] & db2 & Hloop & _).
  eapply sell_loop_ok_fits; [|exact Hloop]. intros m. apply loop_rel_start.
Qed.

(** ** Creating a sale *)

Lemma not_enough_stock_moved d m : not_enough_stock (moved d m) = not_enough_stock m.
Proof. reflexivity. Qed.

Lemma sell_line_short pk l db m :
  medicines db !! id l = Some m →
  Medicine.quantity m < quantity l →
  sell_line pk l db = (inl (not_enough_stock m), db).
Proof.
  intros Hm Hlt. unfold sell_line, bind, Medicine_objects_get, raise. rewrite Hm.
  destruct (Z.ltb_spec (Medicine.quantity m) (quantity l)); [done | lia].
Qed.

(** The cart loop started on a store whose stock is [ms]: earlier lines fit,
    then a line asks for more than what they left. *)
Lemma sell_loop_short pk db pre l post med :
  cart_fits (medicines db) [] pre = true →
  forallb storable_line pre = true →
  medicines db !! id l = Some med →
  Medicine.quantity med - requested (id l) pre < quantity l →
  ∃ dbm, for_each (sell_line pk) (pre ++ l :: post) db = (inl (not_enough_stock med), dbm)
         ∧ for_each (sell_line pk) pre db = (inr tt, dbm).
Proof.
  intros Hfit Hsto Hmed Hlt.
  destruct (sell_loop_fits pk (medicines db) pre [] db) as [dbm Hpre]; [|done|done|].
  { intros m. simpl. destruct (medicines db !! m); simpl; [|done]. by rewrite moved_0. }
  exists dbm. split; [|done].
  apply sell_loop_raises; [done|].
  destruct (sell_loop_ok _ _ _ _ Hpre) as (Hm & _).
  rewrite <- (not_enough_stock_moved (- requested (id l) pre) med).
  apply sell_line_short.
  - by rewrite Hm, Hmed.
  - rewrite quantity_moved. lia.
Qed.

Lemma apply_short_stock request data db pre l post med :
  may_post request data →
  amend_target (user request) data = None →
  cart data = pre ++ l :: post →
  in_column (delivery_fee data) = true →
  cart_fits (medicines db) [] pre = true →
  forallb storable_line pre = true →
  medicines db !! id l = Some med →
  Medicine.quantity med - requested (id l) pre < quantity l →
  pos_view request db = (JsonError (not_enough_stock med), db).
Proof.
  intros Hpost Hmode Hcart Hfee Hfit Hsto Hmed Hlt.
  apply (pos_view_error _ _ _ _ _ Hpost). split; [done|].
  unfold sale_transaction.
  pose proof (open_sale_apply (user request) data (now request) db Hmode Hfee) as Hopen.
  destruct (sell_loop_short (next_sale_pk db)
              (mkDB (medicines db)
                 (<[next_sale_pk db := assign_fields (user request) data
                                         (Sale.fresh (now request))]> (sales db))
                 (items db) (next_sale_pk db + 1) (next_item_pk db))
              pre l post med Hfit Hsto Hmed Hlt) as (dbm & Hloop & _).
  exists dbm. apply bind_err. right. eexists _, _. split; [exact Hopen|].
  simpl. apply bind_err. left. by rewrite Hcart.
Qed.

Lemma line_items_Forall2 pk first c :
  Forall2 item_of_line (line_items pk first c) c.
Proof.
  revert first. induction c as [|l c IH]; intros first; simpl; constructor; auto.
  by repeat split.
Qed.

Lemma apply_effect request data db pk db' :
  may_post request data →
  amend_target (user request) data = None →
  wf_db db = true →
  pos_view request db = (JsonSuccess pk, db') →
  pk = next_sale_pk db
  ∧ (∀ m, medicines db' !! m = moved (- requested m (cart data)) <$> medicines db !! m)
  ∧ items db' = items db ++ line_items pk (next_item_pk db) (cart data)
  ∧ items_of pk (items db') = line_items pk (next_item_pk db) (cart data)
  ∧ sales db' !! pk = Some (final_sale (delivery_fee data) (items_of pk (items db'))
                              (assign_fields (user request) data
                                 (Sale.fresh (now request)))).
Proof.
  intros Hpost Hmode Hwf H. apply (pos_view_success _ _ _ _ _ Hpost) in H.
  destruct (transaction_apply_ok _ _ _ _ _ _ Hmode H)
    as (-> & Hmed & Hitems & Hsales & _).
  repeat split; auto.
  - rewrite Hitems. unfold items_of. rewrite filter_app.
    fold (items_of (next_sale_pk db) (items db)). rewrite (items_of_fresh _ Hwf).
    apply items_of_line_items.
  - rewrite Hsales. apply lookup_insert_eq.
Qed.

Lemma apply_succeeds request data db :
  may_post request data →
  amend_target (user request) data = None →
  wf_db db = true →
  cart_fits (medicines db) [] (cart data) = true →
  storable data = true →
  ∃ pk db', pos_view request db = (JsonSuccess pk, db').
Proof.
  intros Hpost Hmode Hwf Hfit Hsto.
  destruct (transaction_apply_fits (user request) data (now request) db Hmode Hwf Hfit
              Hsto) as [db' H].
  exists (next_sale_pk db), db'. by apply (pos_view_success _ _ _ _ _ Hpost).
Qed.

(** C1. For a cart each of whose lines asks for no more than the stock left
    by the lines before it, creating a sale succeeds (the integers of the
    request fitting their columns); and after every
    successful creation each medicine's stock has gone down by exactly the
    sum of the quantities the cart requested of it, the rows of the new sale
    are the cart lines (quantity and price_at_sale as given), and the sale's
    total_amount is the sum of its items' subtotals plus the delivery fee. *)
Theorem apply_decrements_stock_and_totals request data db :
  may_post request data →
  amend_target (user request) data = None →
  wf_db db = true →
  (cart_fits (medicines db) [] (cart data) = true →
   storable data = true →
   ∃ pk db', pos_view request db = (JsonSuccess pk, db'))
  ∧ ∀ pk db', pos_view request db = (JsonSuccess pk, db') →
      pk = next_sale_pk db
      ∧ (∀ m med, medicines db !! m = Some med →
           ∃ med', medicines db' !! m = Some med'
                   ∧ Medicine.quantity med'
                     = Medicine.quantity med - requested m (cart data))
      ∧ Forall2 item_of_line (items_of pk (items db')) (cart data)
      ∧ ∃ sale, sales db' !! pk = Some sale
                ∧ Sale.delivery_fee sale = delivery_fee data
                ∧ Sale.total_amount sale
                  = sum_subtotals (items_of pk (items db')) + Sale.delivery_fee sale
                ∧ sum_subtotals (items_of pk (items db')) = cart_total (cart data).
Proof.
  intros Hpost Hmode Hwf. split; [by apply apply_succeeds|].
  intros pk db' H.
  destruct (apply_effect _ _ _ _ _ Hpost Hmode Hwf H)
    as (Hpk & Hmed & _ & Hits & Hsale).
  split; [done|]. split; [|split].
  - intros m med Hm. rewrite Hmed, Hm. simpl. eexists. split; [done|].
    rewrite quantity_moved. lia.
  - rewrite Hits. apply line_items_Forall2.
  - eexists. split; [exact Hsale|]. simpl. repeat split.
    rewrite Hits. apply sum_subtotals_line_items.
Qed.

(** Scenario of C1: stock 10, one line of 3 units at 500, fee 100. *)
Lemma apply_scenario_A :
  may_post request_A data_A
  ∧ amend_target (user request_A) data_A = None
  ∧ wf_db db0 = true
  ∧ cart_fits (medicines db0) [] (cart data_A) = true
  ∧ storable data_A = true
  ∧ ∃ db', pos_view request_A db0 = (JsonSuccess 1, db')
           ∧ stock db0 1 = Some 10
           ∧ stock db' 1 = Some 7
           ∧ total_of db' 1 = Some 1600.
Proof.
  assert (Hpost : may_post request_A data_A) by (repeat split).
  destruct (apply_decrements_stock_and_totals request_A data_A db0 Hpost eq_refl eq_refl)
    as [Hex Heff].
  destruct (Hex eq_refl eq_refl) as (pk & db' & Hrun).
  destruct (Heff pk db' Hrun) as (Hpk & Hstock & _ & sale & Hsale & Hfee & Htot & Hsum).
  destruct (Hstock 1 med_A eq_refl) as (med' & Hmed' & Hq).
  repeat split. exists db'. change (next_sale_pk db0) with 1 in Hpk. subst pk.
  split; [exact Hrun|]. split; [reflexivity|]. unfold stock, total_of.
  rewrite Hmed', Hsale. simpl. rewrite Hq, Htot, Hsum, Hfee. split; reflexivity.
Defined.

Lemma quantity_le_requested l c :
  Forall (λ l', 0 ≤ quantity l') c → l ∈ c → quantity l ≤ requested (id l) c.
Proof.
  induction 1 as [|l' c Hl' Hall IH]; intros Hin.
  - by apply elem_of_nil in Hin.
  - simpl. pose proof (requested_nonneg (id l) c Hall).
    apply elem_of_cons in Hin as [<-|Hin].
    + rewrite decide_True by done. lia.
    + specialize (IH Hin). destruct (decide (id l' = id l)); lia.
Qed.

(** A cart with a line that asks for more than the lines before it have
    left is never accepted. *)
Lemma apply_overdraw_fails request data db pre l post med :
  may_post request data →
  amend_target (user request) data = None →
  cart data = pre ++ l :: post →
  medicines db !! id l = Some med →
  Medicine.quantity med - requested (id l) pre < quantity l →
  ∃ e, pos_view request db = (JsonError e, db).
Proof.
  intros Hpost Hmode Hcart Hmed Hlt.
  destruct (pos_view_post_cases request data db Hpost) as [(pk & db' & H)|He];
    [exfalso | exact He].
  apply (pos_view_success _ _ _ _ _ Hpost) in H.
  pose proof (transaction_apply_needs_fit _ _ _ _ _ _ Hmode H) as Hfit.
  apply cart_fits_within in Hfit. simpl in Hfit. rewrite Hcart in Hfit.
  assert (Hnn : Forall (λ l', 0 ≤ quantity l') (pre ++ l :: post)).
  { eapply Forall_impl; [exact Hfit|]. simpl. tauto. }
  rewrite Forall_forall in Hfit.
  destruct (Hfit l) as (_ & med' & Hmed' & Hle).
  { apply elem_of_app. right. apply list_elem_of_here. }
  rewrite Hmed in Hmed'. injection Hmed' as <-.
  apply Forall_app in Hnn as [_ Hnn].
  pose proof (quantity_le_requested l (l :: post) Hnn (list_elem_of_here _ _)).
  rewrite requested_app in Hle. lia.
Qed.

(** C2, as amended. A cart with a line that asks for more of its medicine
    than the lines before it have left is refused and the store is exactly
    the one before the request: no stock has moved (not even for the earlier
    lines) and no Sale or SaleItem row is kept. The error is the
    not-enough-stock error of that medicine when the request gets as far as
    that line, that is, when the delivery fee fits its column and the lines
    before fit the stock and their columns; otherwise it is the error of
    what failed first. *)
Theorem apply_insufficient_stock_rolls_back request data db pre l post med :
  may_post request data →
  amend_target (user request) data = None →
  cart data = pre ++ l :: post →
  medicines db !! id l = Some med →
  Medicine.quantity med - requested (id l) pre < quantity l →
  (∃ e, pos_view request db = (JsonError e, db))
  ∧ (in_column (delivery_fee data) = true →
     cart_fits (medicines db) [] pre = true →
     forallb storable_line pre = true →
     pos_view request db = (JsonError (not_enough_stock med), db)).
Proof.
  intros Hpost Hmode Hcart Hmed Hlt. split.
  - by apply (apply_overdraw_fails _ data _ pre l post med).
  - intros Hfee Hfit Hsto. by apply (apply_short_stock _ data _ pre l post).
Qed.

(** Three units of A (stock 10), then five of B (stock 2): inside the
    transaction A is down to 7 when the line for B raises; the answer is
    the error for B and the store is the one before, A at 10. *)
Lemma apply_scenario_AB :
  may_post request_AB data_AB
  ∧ amend_target (user request_AB) data_AB = None
  ∧ cart data_AB = [mkLine 1 3 500] ++ mkLine 2 5 100 :: []
  ∧ medicines db0 !! 2 = Some med_B
  ∧ Medicine.quantity med_B - requested 2 [mkLine 1 3 500] < 5
  ∧ stock (sale_transaction clerk data_AB 8 db0).2 1 = Some 7
  ∧ pos_view request_AB db0 = (JsonError (ValueError "Not enough stock for B."), db0)
  ∧ stock db0 1 = Some 10.
Proof.
  assert (Hpost : may_post request_AB data_AB) by (repeat split).
  assert (Hlt : Medicine.quantity med_B - requested 2 [mkLine 1 3 500] < 5)
    by (simpl; lia).
  split; [exact Hpost|]. do 3 (split; [reflexivity|]). split; [exact Hlt|].
  split; [reflexivity|]. split; [|reflexivity].
  destruct (apply_insufficient_stock_rolls_back request_AB data_AB db0
              [mkLine 1 3 500] (mkLine 2 5 100) [] med_B Hpost eq_refl eq_refl eq_refl Hlt)
    as [_ Hkind].
  exact (Hkind eq_refl eq_refl eq_refl).
Defined.

(** C2 as stated does not hold: the cart below contains a line for five
    units of B, of which there are two, but the request fails at the line
    before it, which names a medicine that does not exist, with that line's
    error. *)
Lemma insufficient_stock_behind_missing_medicine :
  ¬ (∀ request data db pre l post med,
       may_post request data →
       amend_target (user request) data = None →
       cart data = pre ++ l :: post →
       medicines db !! id l = Some med →
       Medicine.quantity med - requested (id l) pre < quantity l →
       pos_view request db = (JsonError (not_enough_stock med), db)).
Proof.
  intros Hclaim.
  assert (H : pos_view request_missing db0 = (JsonError (not_enough_stock med_B), db0)).
  { apply (Hclaim request_missing data_missing db0 [mkLine 99 1 100] (mkLine 2 5 100) []);
      [repeat split | reflexivity | reflexivity | reflexivity | simpl; lia]. }
  vm_compute in H. discriminate.
Qed.

(** ** Amending a sale *)

Lemma amend_effect request data db target pk db' :
  may_post request data →
  amend_target (user request) data = Some target →
  pos_view request db = (JsonSuccess pk, db') →
  pk = target
  ∧ ∃ old,
      sales db !! target = Some old
      ∧ (∀ m, medicines db' !! m
              = moved (held m (items_of target (items db)) - requested m (cart data))
                  <$> medicines db !! m)
      ∧ items db' = filter (λ i, SaleItem.sale i ≠ target) (items db)
                    ++ line_items target (next_item_pk db) (cart data)
      ∧ items_of target (items db') = line_items target (next_item_pk db) (cart data)
      ∧ sales db' !! target
        = Some (final_sale (delivery_fee data) (items_of target (items db'))
                  (assign_fields (user request) data old)).
Proof.
  intros Hpost Hmode H. apply (pos_view_success _ _ _ _ _ Hpost) in H.
  destruct (transaction_amend_ok _ _ _ _ _ _ _ Hmode H)
    as (-> & old & Hold & Hmed & Hitems & Hsales & _).
  split; [done|]. exists old. repeat split; auto.
  - rewrite Hitems. unfold items_of. rewrite filter_app.
    fold (items_of target (filter (λ i, SaleItem.sale i ≠ target) (items db))).
    rewrite items_of_deleted. apply items_of_line_items.
  - rewrite Hsales. apply lookup_insert_eq.
Qed.



(** C10. A successful amend writes the amending actor into the sale's
    created_by, whoever created the sale, and leaves created_at as it
    was. *)
Theorem amend_overwrites_created_by request data db target pk db' :
  may_post request data →
  amend_target (user request) data = Some target →
  pos_view request db = (JsonSuccess pk, db') →
  pk = target
  ∧ ∃ old new,
      sales db !! pk = Some old
      ∧ sales db' !! pk = Some new
      ∧ Sale.created_by new = Some (User.pk (user request))
      ∧ Sale.created_at new = Sale.created_at old.
Proof.
  intros Hpost Hmode H.
  destruct (amend_effect _ _ _ _ _ _ Hpost Hmode H)
    as (-> & old & Hold & _ & _ & _ & Hnew).
  split; [done|]. eexists old, _.
  split; [exact Hold|]. split; [exact Hnew|]. split; reflexivity.
Qed.

(** Sale 1 was created by the clerk (user 2) at time 7 and is amended by the
    administrator (user 1) at time 9. *)
Lemma amend_scenario_created_by :
  may_post request_amend data_amend
  ∧ amend_target (user request_amend) data_amend = Some 1
  ∧ (Sale.created_by <$> sales db_A !! 1) = Some (Some 2)
  ∧ (Sale.created_at <$> sales db_A !! 1) = Some 7
  ∧ ∃ db', pos_view request_amend db_A = (JsonSuccess 1, db')
           ∧ (Sale.created_by <$> sales db' !! 1) = Some (Some 1)
           ∧ (Sale.created_at <$> sales db' !! 1) = Some 7
           ∧ stock db' 1 = Some 5
           ∧ total_of db' 1 = Some 2700.
Proof.
  assert (Hpost : may_post request_amend data_amend) by (repeat split).
  split; [exact Hpost|]. do 3 (split; [reflexivity|]).
  exists (pos_view request_amend db_A).2.
  assert (Hrun : pos_view request_amend db_A
                 = (JsonSuccess 1, (pos_view request_amend db_A).2)) by reflexivity.
  destruct (amend_overwrites_created_by request_amend data_amend db_A 1 1 _
              Hpost eq_refl Hrun) as (_ & old & new & Hold & Hnew & Hby & Hat).
  split; [exact Hrun|]. rewrite Hnew. simpl. rewrite Hby, Hat.
  assert (Hold' : sales db_A !! 1
                  = Some (final_sale 100 [SaleItem.mk 1 1 1 3 500]
                            (assign_fields clerk data_A (Sale.fresh 7))))
    by reflexivity.
  rewrite Hold' in Hold. injection Hold as <-.
  repeat split; reflexivity.
Defined.

(** ** Two lines for one medicine *)

Lemma sell_line_fits pk l db m :
  medicines db !! id l = Some m →
  0 ≤ quantity l ≤ Medicine.quantity m →
  storable_line l = true →
  sell_line pk l db
  = (inr tt,
     mkDB (<[id l := moved (- quantity l) m]> (medicines db)) (sales db)
          (items db ++ [SaleItem.mk (next_item_pk db) pk (id l) (quantity l) (price l)])
          (next_sale_pk db) (next_item_pk db + 1)).
Proof. intros Hm Hq Hst. apply sell_line_ok. eauto. Qed.

Lemma storable_two_lines data l1 l2 :
  cart data = [l1; l2] →
  storable data = true →
  in_column (delivery_fee data) = true
  ∧ storable_line l1 = true
  ∧ storable_line l2 = true.
Proof.
  intros Hcart Hsto. unfold storable in Hsto. rewrite Hcart in Hsto. simpl in Hsto.
  apply andb_prop in Hsto as [Hsto _]. apply andb_prop in Hsto as [Hfee Hsto].
  apply andb_prop in Hsto as [H1 Hsto]. apply andb_prop in Hsto as [H2 _]. auto.
Qed.

Lemma two_lines_raising_line user data now db l1 l2 med :
  amend_target user data = None →
  cart data = [l1; l2] →
  storable data = true →
  id l2 = id l1 →
  medicines db !! id l1 = Some med →
  0 ≤ quantity l1 →
  Medicine.quantity med < quantity l1 + quantity l2 →
  raising_line user data now db
  = Some (if decide (quantity l1 ≤ Medicine.quantity med) then 1%nat else 0%nat).
Proof.
  intros Hmode Hcart Hsto Hid Hmed H1 Hlt. unfold raising_line.
  destruct (storable_two_lines _ _ _ Hcart Hsto) as (Hfee & Hs1 & Hs2).
  rewrite (open_sale_apply _ _ _ _ Hmode Hfee), Hcart. simpl.
  destruct (decide (quantity l1 ≤ Medicine.quantity med)) as [Hle|Hgt].
  - rewrite (sell_line_fits _ l1 _ med) by (simpl; auto).
    rewrite (sell_line_short _ l2 _ (moved (- quantity l1) med)); [done| |].
    + simpl. rewrite Hid. apply lookup_insert_eq.
    + rewrite quantity_moved. lia.
  - rewrite (sell_line_short _ l1 _ med); [done|done|lia].
Qed.

Lemma two_lines_fits (ms : gmap Z Medicine.t) l1 l2 med :
  id l2 = id l1 →
  ms !! id l1 = Some med →
  0 ≤ quantity l1 → 0 ≤ quantity l2 →
  quantity l1 + quantity l2 ≤ Medicine.quantity med →
  cart_fits ms [] [l1; l2] = true.
Proof.
  intros Hid Hmed H1 H2 Hle. simpl. rewrite Hid, Hmed. simpl.
  rewrite decide_True by done.
  repeat (apply andb_true_intro; split); try apply Z.leb_le; try lia; done.
Qed.

Lemma two_lines_short request data db l1 l2 med :
  may_post request data →
  amend_target (user request) data = None →
  cart data = [l1; l2] →
  storable data = true →
  id l2 = id l1 →
  medicines db !! id l1 = Some med →
  0 ≤ quantity l1 →
  Medicine.quantity med < quantity l1 + quantity l2 →
  pos_view request db = (JsonError (not_enough_stock med), db).
Proof.
  intros Hpost Hmode Hcart Hsto Hid Hmed H1 Hlt.
  destruct (storable_two_lines _ _ _ Hcart Hsto) as (Hfee & Hs1 & Hs2).
  destruct (decide (quantity l1 ≤ Medicine.quantity med)) as [Hle|Hgt].
  - apply (apply_short_stock request data db [l1] l2 [] med); auto.
    + simpl. rewrite Hmed. simpl.
      repeat (apply andb_true_intro; split); try apply Z.leb_le; try lia; done.
    + simpl. by rewrite Hs1.
    + by rewrite Hid.
    + rewrite Hid. simpl. rewrite decide_True by done. lia.
  - apply (apply_short_stock request data db [] l1 [l2] med); auto.
    simpl. lia.
Qed.

(** C4, as amended. Two lines (of non-negative quantity, the integers of
    the request fitting their columns) for the same medicine are checked in
    cart order, the second against the stock the first has left: the sale is
    created exactly when the two quantities together are within the
    starting stock; otherwise the request fails with the not-enough-stock
    error and an unchanged store -- at the second line when the first
    quantity alone is within the starting stock, at the first line already
    when it is not. *)
Theorem two_lines_checked_cumulatively request data db l1 l2 med :
  may_post request data →
  amend_target (user request) data = None →
  wf_db db = true →
  cart data = [l1; l2] →
  storable data = true →
  id l2 = id l1 →
  medicines db !! id l1 = Some med →
  0 ≤ quantity l1 →
  0 ≤ quantity l2 →
  ((∃ pk db', pos_view request db = (JsonSuccess pk, db'))
   ↔ quantity l1 + quantity l2 ≤ Medicine.quantity med)
  ∧ (Medicine.quantity med < quantity l1 + quantity l2 →
     pos_view request db = (JsonError (not_enough_stock med), db)
     ∧ raising_line (user request) data (now request) db
       = Some (if decide (quantity l1 ≤ Medicine.quantity med)
               then 1%nat else 0%nat)).
Proof.
  intros Hpost Hmode Hwf Hcart Hsto Hid Hmed H1 H2. split; [split|].
  - intros (pk & db' & Hok).
    destruct (Z.le_gt_cases (quantity l1 + quantity l2) (Medicine.quantity med))
      as [Hle|Hlt]; [done|].
    rewrite (two_lines_short _ _ _ _ _ _ Hpost Hmode Hcart Hsto Hid Hmed H1 Hlt) in Hok.
    discriminate.
  - intros Hle. apply (apply_succeeds _ _ _ Hpost Hmode Hwf); [|done].
    rewrite Hcart. by apply (two_lines_fits _ _ _ med).
  - intros Hlt. split.
    + by apply (two_lines_short _ data _ l1 l2).
    + by apply (two_lines_raising_line _ _ _ _ l1 l2).
Qed.

(** Six then five units of A (stock 10): the second line is the one that
    raises. *)
Lemma two_lines_scenario_AA :
  may_post request_AA data_AA
  ∧ amend_target (user request_AA) data_AA = None
  ∧ wf_db db0 = true
  ∧ storable data_AA = true
  ∧ medicines db0 !! 1 = Some med_A
  ∧ pos_view request_AA db0 = (JsonError (ValueError "Not enough stock for A."), db0)
  ∧ raising_line clerk data_AA 8 db0 = Some 1%nat.
Proof.
  assert (Hpost : may_post request_AA data_AA) by (repeat split).
  split; [exact Hpost|]. do 4 (split; [reflexivity|]).
  destruct (two_lines_checked_cumulatively request_AA data_AA db0
              (mkLine 1 6 500) (mkLine 1 5 500) med_A Hpost eq_refl eq_refl eq_refl
              eq_refl eq_refl eq_refl) as [_ Hshort]; [simpl; lia | simpl; lia |].
  apply Hshort. simpl. lia.
Defined.

(** C4 as stated does not hold: with stock 2, lines of five and one unit
    overdraw together, but the request fails at the first line (index 0),
    not at the second. *)
Lemma two_lines_failure_at_first_line :
  ¬ (∀ request data db l1 l2 med,
       may_post request data →
       amend_target (user request) data = None →
       cart data = [l1; l2] →
       id l2 = id l1 →
       medicines db !! id l1 = Some med →
       0 < quantity l1 →
       0 < quantity l2 →
       ((∃ pk db', pos_view request db = (JsonSuccess pk, db'))
        ↔ quantity l1 + quantity l2 ≤ Medicine.quantity med)
       ∧ (Medicine.quantity med < quantity l1 + quantity l2 →
          pos_view request db = (JsonError (not_enough_stock med), db)
          ∧ raising_line (user request) data (now request) db = Some 1%nat)).
Proof.
  intros Hclaim.
  destruct (Hclaim request_BB data_BB db0 (mkLine 2 5 100) (mkLine 2 1 100) med_B)
    as [_ Hshort]; try reflexivity.
  - repeat split.
  - destruct Hshort as [_ Hline]; [simpl; lia|].
    vm_compute in Hline. discriminate.
Qed.

(** ** Medicines that are missing or removed *)

Lemma sell_line_missing pk l db :
  medicines db !! id l = None →
  sell_line pk l db = (inl DoesNotExist, db).
Proof.
  intros Hm. unfold sell_line, bind, Medicine_objects_get. by rewrite Hm.
Qed.

(** A line naming a medicine key that has no row (earlier lines fitting the
    stock): the request fails and nothing is kept. *)
Lemma apply_missing_medicine request data db pre l post :
  may_post request data →
  amend_target (user request) data = None →
  cart data = pre ++ l :: post →
  in_column (delivery_fee data) = true →
  cart_fits (medicines db) [] pre = true →
  forallb storable_line pre = true →
  medicines db !! id l = None →
  pos_view request db = (JsonError DoesNotExist, db).
Proof.
  intros Hpost Hmode Hcart Hfee Hfit Hsto Hnone.
  apply (pos_view_error _ _ _ _ _ Hpost). split; [done|].
  unfold sale_transaction.
  pose proof (open_sale_apply (user request) data (now request) db Hmode Hfee) as Hopen.
  destruct (sell_loop_fits (next_sale_pk db) (medicines db) pre []
              (mkDB (medicines db)
                 (<[next_sale_pk db := assign_fields (user request) data
                                         (Sale.fresh (now request))]> (sales db))
                 (items db) (next_sale_pk db + 1) (next_item_pk db)))
    as [dbm Hpre]; [|done|done|].
  { intros m. simpl. destruct (medicines db !! m); simpl; [|done]. by rewrite moved_0. }
  exists dbm. apply bind_err. right. eexists _, _. split; [exact Hopen|].
  simpl. apply bind_err. left. rewrite Hcart.
  apply sell_loop_raises; [done|]. apply sell_line_missing.
  destruct (sell_loop_ok _ _ _ _ Hpre) as (Hm & _).
  rewrite Hm. simpl. by rewrite Hnone.
Qed.

Lemma MedicineDeleteView_post_id pk db : MedicineDeleteView_post pk db = db.
Proof.
  unfold MedicineDeleteView_post, set_medicines.
  destruct (medicines db !! pk) as [m|] eqn:Hm; [|done].
  rewrite (insert_id _ _ _ Hm). by destruct db.
Qed.

(** C5 (the code departs from it). Medicine A (key 1) has been removed
    through the delete view, which reported the removal: a POST whose cart
    names A is served all the same -- the sale is created, an item row
    references the removed medicine and its stock goes from 10 to 7. The
    page of the point of sale, for which alone the code asks for active
    medicines, raises on its filter. *)
Theorem inactive_medicine_is_sold :
  MedicineDeleteView stock_keeper 1 db0 = (RedirectTo "medicine_list", db_C)
  ∧ stock db_C 1 = Some 10
  ∧ (pos_view (mkRequest clerk (GET None) 8) db_C).1
    = ServerError (FieldError "is_active")
  ∧ ∃ db', pos_view request_C db_C = (JsonSuccess 1, db')
           ∧ stock db' 1 = Some 7
           ∧ items db' = [SaleItem.mk 1 1 1 3 500]
           ∧ total_of db' 1 = Some 1500.
Proof.
  split; [reflexivity|]. split; [reflexivity|]. split; [reflexivity|].
  eexists. split; [reflexivity|]. repeat split.
Qed.

(** ** Input that the spec calls malformed *)

Lemma post_success_nonneg_quantities request data db pk db' :
  may_post request data →
  pos_view request db = (JsonSuccess pk, db') →
  Forall (λ l, 0 ≤ quantity l) (cart data).
Proof.
  intros Hpost H. apply (pos_view_success _ _ _ _ _ Hpost) in H.
  destruct (amend_target (user request) data) as [target|] eqn:Hmode.
  - destruct (transaction_amend_ok _ _ _ _ _ _ _ Hmode H)
      as (_ & old & _ & _ & _ & _ & _ & Hall). exact Hall.
  - destruct (transaction_apply_ok _ _ _ _ _ _ Hmode H)
      as (_ & _ & _ & _ & _ & _ & Hall). exact Hall.
Qed.

(** C6, as amended. The view validates nothing before the transaction. A
    line of negative quantity makes the request (new sale or amend) fail,
    inside the transaction, and the roll-back leaves the store as it was.
    A quantity of zero, a negative unit price and a negative delivery fee
    are not refused: creating a sale succeeds for every cart that fits the
    stock, whatever the sign of its prices and of the fee, as long as the
    integers of the request and the resulting total fit their columns, and
    the Sale row is stored with total_amount = sum of quantity x price +
    fee. *)
Theorem only_negative_quantity_is_refused request data db :
  may_post request data →
  wf_db db = true →
  ((∃ l, l ∈ cart data ∧ quantity l < 0) →
   ∃ e, pos_view request db = (JsonError e, db))
  ∧ (amend_target (user request) data = None →
     cart_fits (medicines db) [] (cart data) = true →
     storable data = true →
     ∃ pk db' sale,
       pos_view request db = (JsonSuccess pk, db')
       ∧ pk = next_sale_pk db
       ∧ sales db' !! pk = Some sale
       ∧ Sale.delivery_fee sale = delivery_fee data
       ∧ Sale.total_amount sale = cart_total (cart data) + delivery_fee data).
Proof.
  intros Hpost Hwf. split.
  - intros (l & Hin & Hneg).
    destruct (pos_view_post_cases request data db Hpost) as [(pk & db' & H)|He];
      [|exact He].
    pose proof (post_success_nonneg_quantities _ _ _ _ _ Hpost H) as Hall.
    rewrite Forall_forall in Hall. specialize (Hall l Hin). lia.
  - intros Hmode Hfit Hsto.
    destruct (apply_succeeds _ _ _ Hpost Hmode Hwf Hfit Hsto) as (pk & db' & H).
    destruct (apply_effect _ _ _ _ _ Hpost Hmode Hwf H)
      as (Hpk & _ & _ & Hits & Hsale).
    eexists pk, db', _. split; [exact H|]. split; [exact Hpk|].
    split; [exact Hsale|]. simpl. split; [done|].
    rewrite Hits. by rewrite sum_subtotals_line_items.
Qed.

(** Zero quantity, negative price, negative fee: served, total -100; a
    negative quantity: refused, store unchanged. *)
Lemma malformed_scenarios :
  may_post request_odd data_odd
  ∧ may_post request_neg data_neg
  ∧ wf_db db0 = true
  ∧ (∃ db', pos_view request_odd db0 = (JsonSuccess 1, db')
            ∧ total_of db' 1 = Some (-100))
  ∧ ∃ e, pos_view request_neg db0 = (JsonError e, db0).
Proof.
  assert (Hodd : may_post request_odd data_odd) by (repeat split).
  assert (Hneg : may_post request_neg data_neg) by (repeat split).
  split; [exact Hodd|]. split; [exact Hneg|]. split; [reflexivity|]. split.
  - destruct (only_negative_quantity_is_refused request_odd data_odd db0 Hodd eq_refl)
      as [_ Hserved].
    destruct (Hserved eq_refl eq_refl eq_refl)
      as (pk & db' & sale & H & Hpk & Hsale & _ & Htot).
    change (next_sale_pk db0) with 1 in Hpk. subst pk.
    exists db'. split; [exact H|]. unfold total_of. rewrite Hsale. simpl.
    rewrite Htot. reflexivity.
  - destruct (only_negative_quantity_is_refused request_neg data_neg db0 Hneg eq_refl)
      as [Hrefused _].
    apply Hrefused. exists (mkLine 1 (-3) 500). split; [|simpl; lia].
    apply list_elem_of_here.
Defined.

(** C6 as stated does not hold: the request with a zero quantity, a negative
    price and a negative fee is malformed, and it stores a Sale row. *)
Lemma malformed_input_is_served :
  ¬ (∀ request data db,
       may_post request data →
       malformed data = true →
       is_error (pos_view request db).1 ∧ (pos_view request db).2 = db).
Proof.
  intros Hclaim.
  destruct (Hclaim request_odd data_odd db0) as [_ Hsame]; [repeat split | reflexivity |].
  apply (f_equal (λ d, total_of d 1)) in Hsame. vm_compute in Hsame. discriminate.
Qed.

(** ** The price stored with an item *)

Lemma pos_view_success_inv request db pk db' :
  pos_view request db = (JsonSuccess pk, db') → ∃ data, may_post request data.
Proof.
  unfold pos_view, may_post.
  destruct (User.is_authenticated (user request)); simpl; [|discriminate].
  destruct (user_has_permission (user request) "add_sale"); simpl; [|discriminate].
  destruct (method request) as [sid|data]; [discriminate|]. eauto.
Qed.

Lemma post_items_of_sale request data db pk db' :
  may_post request data →
  wf_db db = true →
  pos_view request db = (JsonSuccess pk, db') →
  items_of pk (items db') = line_items pk (next_item_pk db) (cart data).
Proof.
  intros Hpost Hwf H.
  destruct (amend_target (user request) data) as [target|] eqn:Hmode.
  - destruct (amend_effect _ _ _ _ _ _ Hpost Hmode H)
      as (-> & old & _ & _ & _ & Hof & _). exact Hof.
  - destruct (apply_effect _ _ _ _ _ Hpost Hmode Hwf H) as (_ & _ & _ & Hof & _).
    exact Hof.
Qed.

(** A stored item row survives any request as it is, unless the request
    amends the sale it belongs to. *)
Lemma stored_item_stays request db i :
  i ∈ items db →
  i ∈ items (pos_view request db).2
  ∨ (pos_view request db).1 = JsonSuccess (SaleItem.sale i).
Proof.
  intros Hin.
  destruct (pos_view_unchanged request db) as [[pk Hok]|Hsame];
    [|left; by rewrite Hsame].
  destruct (pos_view request db) as [r db'] eqn:H. simpl in *. subst r.
  destruct (pos_view_success_inv _ _ _ _ H) as [data Hpost].
  apply (pos_view_success _ _ _ _ _ Hpost) in H.
  destruct (amend_target (user request) data) as [target|] eqn:Hmode.
  - destruct (transaction_amend_ok _ _ _ _ _ _ _ Hmode H)
      as (-> & old & _ & _ & Hitems & _).
    destruct (decide (SaleItem.sale i = target)) as [->|Hne]; [by right|].
    left. rewrite Hitems. apply elem_of_app. left.
    by apply list_elem_of_filter.
  - destruct (transaction_apply_ok _ _ _ _ _ _ Hmode H) as (_ & _ & Hitems & _).
    left. rewrite Hitems. apply elem_of_app. by left.
Qed.

(** C7, as amended. The items that a successful request stores for its sale
    are the cart lines, in order, each with price_at_sale equal to the unit
    price given in its cart line (the medicine's selling price is not
    consulted). The stored value then stays: an update of the medicine
    (its selling price included) leaves every item row as it is, and so does
    every later request except an amend of the item's own sale, which
    deletes the row. *)
Theorem price_at_sale_is_the_cart_price request data db pk db' :
  may_post request data →
  wf_db db = true →
  pos_view request db = (JsonSuccess pk, db') →
  Forall2 item_of_line (items_of pk (items db')) (cart data)
  ∧ (∀ m cleaned, items (MedicineUpdateView_form_valid m cleaned db') = items db')
  ∧ (∀ request2 i,
       i ∈ items db' →
       i ∈ items (pos_view request2 db').2
       ∨ (pos_view request2 db').1 = JsonSuccess (SaleItem.sale i)).
Proof.
  intros Hpost Hwf H. split; [|split].
  - rewrite (post_items_of_sale _ _ _ _ _ Hpost Hwf H). apply line_items_Forall2.
  - reflexivity.
  - intros request2 i. apply stored_item_stays.
Qed.

(** Three units of A sold at a unit price of 1 while A's selling price is
    500; raising the selling price afterwards does not touch the row. *)
Lemma price_scenario_cheap :
  may_post request_cheap data_cheap
  ∧ wf_db db0 = true
  ∧ (Medicine.selling_price <$> medicines db0 !! 1) = Some 500
  ∧ ∃ db', pos_view request_cheap db0 = (JsonSuccess 1, db')
           ∧ (SaleItem.price_at_sale <$> items_of 1 (items db')) = [1]
           ∧ (SaleItem.price_at_sale
                <$> items (MedicineUpdateView_form_valid 1
                             (Medicine.mk "A" 7 300 900) db')) = [1].
Proof.
  assert (Hpost : may_post request_cheap data_cheap) by (repeat split).
  split; [exact Hpost|]. do 2 (split; [reflexivity|]).
  exists (pos_view request_cheap db0).2.
  assert (Hrun : pos_view request_cheap db0
                 = (JsonSuccess 1, (pos_view request_cheap db0).2)) by reflexivity.
  destruct (price_at_sale_is_the_cart_price request_cheap data_cheap db0 1 _
              Hpost eq_refl Hrun) as (Hlines & Hupd & _).
  split; [exact Hrun|]. rewrite Hupd. split; [|reflexivity].
  remember (items_of 1 (items (pos_view request_cheap db0).2)) as its eqn:Hits.
  clear Hits. change (cart data_cheap) with [mkLine 1 3 1] in Hlines.
  inversion Hlines as [|i l its' ls (_ & _ & Hprice) Hrest]; subst.
  inversion Hrest; subst. simpl. by rewrite Hprice.
Defined.

(** C7 as stated does not hold: the item stored for the cart line at unit
    price 1 has price_at_sale 1, not the medicine's selling price 500. *)
Lemma price_at_sale_not_selling_price :
  ¬ (∀ request data db pk db',
       may_post request data →
       wf_db db = true →
       pos_view request db = (JsonSuccess pk, db') →
       ∀ i, i ∈ items_of pk (items db') →
            ∃ med, medicines db !! SaleItem.medicine i = Some med
                   ∧ SaleItem.price_at_sale i = Medicine.selling_price med).
Proof.
  intros Hclaim.
  destruct (Hclaim request_cheap data_cheap db0 1 (pos_view request_cheap db0).2)
    with (i := SaleItem.mk 1 1 1 3 1) as (med & Hmed & Hprice);
    [repeat split | reflexivity | reflexivity | apply list_elem_of_here |].
  vm_compute in Hmed. injection Hmed as <-. discriminate.
Qed.

(** ** Stock never goes below zero *)

Section Preserves.
Context (P : DB → Prop).

Lemma preserves_ret {A} (a : A) : preserves P (ret a).
Proof. intros db r db' HP [= <- <-]. exact HP. Qed.

Lemma preserves_raise {A} e : preserves P (@raise A e).
Proof. intros db r db' HP [= <- <-]. exact HP. Qed.

Lemma preserves_bind {A B} (c : M A) (k : A → M B) :
  preserves P c → (∀ a, preserves P (k a)) → preserves P (bind c k).
Proof.
  intros Hc Hk db r db' HP. unfold bind.
  destruct (c db) as [[e|a] db1] eqn:E.
  - intros [= <- <-]. by apply (Hc _ _ _ HP E).
  - apply Hk. by apply (Hc _ _ _ HP E).
Qed.

Lemma preserves_for_each {A} (body : A → M unit) l :
  (∀ x, preserves P (body x)) → preserves P (for_each body l).
Proof.
  intros Hbody. induction l as [|x l IH]; simpl.
  - apply preserves_ret.
  - apply preserves_bind; [apply Hbody | intros _; exact IH].
Qed.

(** The roll-back returns to the store on entry, where [P] held. *)
Lemma preserves_atomic {A} (c : M A) : preserves P c → preserves P (atomic c).
Proof.
  intros Hc db r db' HP. unfold atomic.
  destruct (c db) as [[e|a] db1] eqn:E.
  - intros [= <- <-]. exact HP.
  - intros [= <- <-]. by apply (Hc _ _ _ HP E).
Qed.
End Preserves.

(** An operation that leaves the medicine table alone keeps the stock
    non-negative. *)
Lemma preserves_same_medicines {A} (c : M A) :
  (∀ db, medicines (c db).2 = medicines db) → preserves stock_nonneg c.
Proof.
  intros Hsame db r db' HP E m med. pose proof (Hsame db) as Hm.
  rewrite E in Hm. simpl in Hm. rewrite Hm. apply HP.
Qed.

Lemma save_quantity_F_nonneg pk delta : preserves stock_nonneg (save_quantity_F pk delta).
Proof.
  intros db r db' HP. unfold save_quantity_F.
  destruct (medicines db !! pk) as [m0|] eqn:Hm0; [|by intros [= <- <-]].
  destruct (Z.ltb_spec (Medicine.quantity m0 + delta) 0); intros [= <- <-]; [done|].
  intros m med. simpl. destruct (decide (pk = m)) as [<-|Hne].
  - rewrite lookup_insert_eq. intros [= <-]. simpl. lia.
  - rewrite lookup_insert_ne by done. apply HP.
Qed.

Lemma Medicine_objects_get_nonneg pk : preserves stock_nonneg (Medicine_objects_get pk).
Proof.
  apply preserves_same_medicines. intros db. unfold Medicine_objects_get.
  by destruct (medicines db !! pk).
Qed.

Lemma restore_item_nonneg i : preserves stock_nonneg (restore_item i).
Proof.
  apply preserves_bind; [apply Medicine_objects_get_nonneg|].
  intros _. apply save_quantity_F_nonneg.
Qed.

Lemma sell_line_nonneg pk l : preserves stock_nonneg (sell_line pk l).
Proof.
  apply preserves_bind; [apply Medicine_objects_get_nonneg|]. intros medicine.
  cbv zeta.
  destruct (Medicine.quantity medicine <? quantity l); [apply preserves_raise|].
  apply preserves_bind; [|intros _; apply save_quantity_F_nonneg].
  apply preserves_same_medicines. intros db. unfold SaleItem_objects_create.
  destruct (negb _); [done|]. by destruct (quantity l <? 0).
Qed.

Lemma Sale_save_nonneg pk s : preserves stock_nonneg (Sale_save pk s).
Proof.
  apply preserves_same_medicines. intros db. unfold Sale_save.
  by destruct (in_column _ && in_column _).
Qed.

Lemma open_sale_nonneg user data now : preserves stock_nonneg (open_sale user data now).
Proof.
  unfold open_sale. apply preserves_bind.
  - destruct (amend_target user data) as [pk|].
    + apply preserves_bind.
      { apply preserves_same_medicines. intros db. unfold get_object_or_404.
        by destruct (sales db !! pk). }
      intros sale. apply preserves_bind; [by apply preserves_same_medicines|].
      intros old_items. apply preserves_bind.
      { apply preserves_for_each. apply restore_item_nonneg. }
      intros _. apply preserves_bind; [by apply preserves_same_medicines|].
      intros _. apply preserves_ret.
    + by apply preserves_same_medicines.
  - intros ps. apply preserves_bind; [apply Sale_save_nonneg|].
    intros _. apply preserves_ret.
Qed.

Lemma sale_transaction_nonneg user data now :
  preserves stock_nonneg (sale_transaction user data now).
Proof.
  unfold sale_transaction. apply preserves_bind; [apply open_sale_nonneg|].
  intros ps. apply preserves_bind.
  { apply preserves_for_each. apply sell_line_nonneg. }
  intros _. apply preserves_bind; [|intros _; apply preserves_ret].
  unfold update_total. apply preserves_bind; [by apply preserves_same_medicines|].
  intros its. apply Sale_save_nonneg.
Qed.

Lemma pos_view_nonneg request db :
  stock_nonneg db → stock_nonneg (pos_view request db).2.
Proof.
  intros HP. unfold pos_view.
  destruct (negb (User.is_authenticated (user request))); [done|].
  destruct (negb (user_has_permission (user request) "add_sale")); [done|].
  destruct (method request) as [sid|data]; [done|].
  destruct (atomic (sale_transaction (user request) data (now request)) db)
    as [[e|pk] db'] eqn:E; simpl;
    apply (preserves_atomic stock_nonneg _ (sale_transaction_nonneg _ _ _) _ _ _ HP E).
Qed.

Lemma stock_nonneg_db0 : stock_nonneg db0.
Proof.
  intros m med. unfold db0. simpl.
  rewrite !lookup_insert_Some, lookup_empty.
  intros [[_ <-]|[_ [[_ <-]|[_ [=]]]]]; simpl; lia.
Qed.

(** C8. Requests served one after the other from a store in which every
    medicine's stock is at least 0: in every store reached along the way,
    after a request that succeeded as after one that failed, every
    medicine's stock is at least 0. *)
Theorem stock_stays_nonneg requests : ∀ db,
  stock_nonneg db → Forall stock_nonneg (run requests db).
Proof.
  induction requests as [|r rs IH]; intros db HP; simpl; constructor.
  - by apply pos_view_nonneg.
  - apply IH. by apply pos_view_nonneg.
Qed.

(** A sale, a refused sale, a refused amend and an amend in a row. *)
Lemma stock_scenario_run :
  stock_nonneg db0
  ∧ (λ db, stock db 1) <$> run [request_A; request_B; request_amend_short; request_amend] db0
    = [Some 7; Some 7; Some 7; Some 5]
  ∧ Forall stock_nonneg
      (run [request_A; request_B; request_amend_short; request_amend] db0).
Proof.
  split; [exact stock_nonneg_db0|]. split; [reflexivity|].
  exact (stock_stays_nonneg [request_A; request_B; request_amend_short; request_amend]
           db0 stock_nonneg_db0).
Defined.


(** * Further properties of the point of sale *)

(** ** When a cart is accepted *)

(** X1. Whether a new sale is accepted does not depend on the order of the
    cart lines: it is accepted exactly when every line asks for a
    non-negative quantity of an existing medicine and, medicine by medicine,
    the lines together ask for no more than the stock -- for a request
    whose integers (quantities, prices, fee and resulting total) fit their
    columns. *)
Theorem apply_accepted_iff_within_stock request data db :
  may_post request data →
  amend_target (user request) data = None →
  wf_db db = true →
  storable data = true →
  (∃ pk db', pos_view request db = (JsonSuccess pk, db'))
  ↔ within_stock (stock db) (cart data).
Proof.
  intros Hpost Hmode Hwf Hsto. unfold stock. rewrite <- cart_fits_iff_within. split.
  - intros (pk & db' & H). apply (pos_view_success _ _ _ _ _ Hpost) in H.
    by apply (transaction_apply_needs_fit _ _ _ _ _ _ Hmode H).
  - intros Hfit. by apply (apply_succeeds request data db).
Qed.

(** Two lines for A and one for B, 10 of A and 2 of B in stock. *)
Lemma apply_accepted_scenario :
  let data := body [mkLine 1 4 500; mkLine 2 2 100; mkLine 1 6 500] 0 None in
  may_post (post clerk data 8) data
  ∧ amend_target clerk data = None
  ∧ wf_db db0 = true
  ∧ storable data = true
  ∧ ∃ pk db', pos_view (post clerk data 8) db0 = (JsonSuccess pk, db').
Proof.
  intros data.
  assert (Hpost : may_post (post clerk data 8) data) by (repeat split).
  split; [exact Hpost|]. do 3 (split; [reflexivity|]).
  apply (apply_accepted_iff_within_stock (post clerk data 8) data db0 Hpost eq_refl
           eq_refl eq_refl).
  repeat constructor; simpl; try lia; eexists; (split; [reflexivity|simpl; lia]).
Defined.

(** ** When an amend is accepted *)









(** ** The integrity of the store is kept *)

Lemma items_of_filter_other t k l :
  k ≠ t → items_of k (filter (λ i, SaleItem.sale i ≠ t) l) = items_of k l.
Proof.
  intros Hne. unfold items_of. induction l as [|i l IH]; [done|].
  destruct (decide (SaleItem.sale i = t)) as [Ht|Ht].
  - rewrite (filter_cons_False (λ i, SaleItem.sale i ≠ t)) by tauto.
    rewrite (filter_cons_False (λ i, SaleItem.sale i = k)) by congruence. exact IH.
  - rewrite (filter_cons_True (λ i, SaleItem.sale i ≠ t)) by done.
    destruct (decide (SaleItem.sale i = k)).
    + rewrite !(filter_cons_True (λ i, SaleItem.sale i = k)) by done. by rewrite IH.
    + rewrite !(filter_cons_False (λ i, SaleItem.sale i = k)) by done. exact IH.
Qed.


Lemma Forall_line_items (P : SaleItem.t → Prop) pk c :
  (∀ l first, l ∈ c → P (SaleItem.mk first pk (id l) (quantity l) (price l))) →
  ∀ first, Forall P (line_items pk first c).
Proof.
  induction c as [|l c IH]; intros HP first; simpl; constructor.
  - apply HP. apply list_elem_of_here.
  - apply IH. intros l' first' Hin. apply HP. by apply list_elem_of_further.
Qed.

(** The lines of a cart that was accepted name existing medicines. *)
Lemma post_success_lines_exist request data db pk db' :
  may_post request data →
  pos_view request db = (JsonSuccess pk, db') →
  Forall (λ l, is_Some (medicines db !! id l)) (cart data).
Proof.
  intros Hpost H. apply (pos_view_success _ _ _ _ _ Hpost) in H.
  destruct (amend_target (user request) data) as [target|] eqn:Hmode.
  - unfold sale_transaction in H. apply bind_ok in H as (ps & db1 & Hopen & H).
    destruct (open_sale_amend_ok _ _ _ _ _ _ _ Hmode Hopen)
      as (old & _ & -> & Hmed1 & _).
    simpl in H. apply bind_ok in H as ([] & db2 & Hloop & _).
    assert (Hfit : cart_fits (medicines db1) [] (cart data) = true).
    { eapply sell_loop_ok_fits; [|exact Hloop]. intros m. apply loop_rel_start. }
    apply cart_fits_within in Hfit. eapply Forall_impl; [exact Hfit|]. simpl.
    intros l (_ & med & Hmed & _). rewrite Hmed1 in Hmed.
    destruct (medicines db !! id l); [by eexists | discriminate].
  - pose proof (transaction_apply_needs_fit _ _ _ _ _ _ Hmode H) as Hfit.
    apply cart_fits_within in Hfit. eapply Forall_impl; [exact Hfit|]. simpl.
    intros l (_ & med & Hmed & _). by eexists.
Qed.

Lemma consistent_wf db : consistent db → wf_db db = true.
Proof.
  intros (Hkeys & Hfk & _). unfold wf_db. apply forallb_forall. intros i Hi.
  apply Z.ltb_lt. rewrite Forall_forall in Hfk.
  destruct (Hfk i) as ([s Hs] & _); [by apply list_elem_of_In|].
  destruct (Z.lt_ge_cases (SaleItem.sale i) (next_sale_pk db)) as [|Hge]; [done|].
  rewrite (Hkeys _ Hge) in Hs. discriminate.
Qed.

Lemma storable_lines_in_range pk first c :
  forallb storable_line c = true →
  Forall (λ i, in_column (SaleItem.quantity i) = true
               ∧ in_column (SaleItem.price_at_sale i) = true)
         (line_items pk first c).
Proof.
  intros Hsto. apply Forall_line_items. intros l f Hin. simpl.
  rewrite forallb_forall in Hsto. apply list_elem_of_In in Hin.
  specialize (Hsto l Hin). unfold storable_line in Hsto.
  by apply andb_prop in Hsto.
Qed.

Lemma consistent_success request data db pk db' :
  may_post request data →
  consistent db →
  pos_view request db = (JsonSuccess pk, db') →
  consistent db'.
Proof.
  intros Hpost Hcons H.
  pose proof (post_success_lines_exist _ _ _ _ _ Hpost H) as Hlines.
  pose proof (post_success_nonneg_quantities _ _ _ _ _ Hpost H) as Hqs.
  assert (Hnn' : stock_nonneg db').
  { destruct Hcons as (_ & _ & Hnn & _).
    pose proof (pos_view_nonneg request db Hnn) as Hn. by rewrite H in Hn. }
  destruct Hcons as (Hkeys & Hfk & Hnn & Htot & Hcoli & Hcols).
  apply (pos_view_success _ _ _ _ _ Hpost) in H.
  destruct (sale_transaction_storable _ _ _ _ _ _ H) as (Hfee & Hsto & Htotcol).
  destruct (amend_target (user request) data) as [target|] eqn:Hmode.
  - destruct (transaction_amend_ok _ _ _ _ _ _ _ Hmode H)
      as (-> & old & Hold & Hmed & Hitems & Hsales & Hns & _).
    assert (Hlt : target < next_sale_pk db).
    { destruct (Z.lt_ge_cases target (next_sale_pk db)) as [|Hge]; [done|].
      rewrite (Hkeys _ Hge) in Hold. discriminate. }
    split; [|split; [|split; [done|split; [|split]]]].
    + intros k Hk. rewrite Hns in Hk. rewrite Hsales, lookup_insert_ne by lia. auto.
    + rewrite Hitems. apply Forall_app. split.
      * apply Forall_forall. intros i Hi. apply list_elem_of_filter in Hi as [_ Hi].
        rewrite Forall_forall in Hfk. destruct (Hfk i Hi) as (Hs & [m Hm] & Hq).
        rewrite Hsales, Hmed, Hm. split; [|split; [by eexists | done]].
        apply lookup_insert_is_Some'. by right.
      * apply Forall_line_items. intros l first Hin. simpl.
        rewrite Forall_forall in Hlines, Hqs. destruct (Hlines l Hin) as [m Hm].
        rewrite Hsales, Hmed, Hm, lookup_insert_eq.
        split; [by eexists|]. split; [by eexists | by apply Hqs].
    + intros k s. rewrite Hsales. destruct (decide (target = k)) as [<-|Hne].
      * rewrite lookup_insert_eq. intros [= <-]. reflexivity.
      * rewrite lookup_insert_ne by done. intros Hs. rewrite (Htot _ _ Hs), Hitems.
        unfold items_of at 2. rewrite filter_app.
        fold (items_of k (filter (λ i, SaleItem.sale i ≠ target) (items db))).
        fold (items_of k (line_items target (next_item_pk db) (cart data))).
        rewrite items_of_filter_other, items_of_other, app_nil_r by done. done.
    + rewrite Hitems. apply Forall_app. split.
      * apply Forall_forall. intros i Hi. apply list_elem_of_filter in Hi as [_ Hi].
        rewrite Forall_forall in Hcoli. by apply Hcoli.
      * by apply storable_lines_in_range.
    + intros k s. rewrite Hsales. destruct (decide (target = k)) as [<-|Hne].
      * rewrite lookup_insert_eq. intros [= <-]. simpl. by split.
      * rewrite lookup_insert_ne by done. apply Hcols.
  - destruct (transaction_apply_ok _ _ _ _ _ _ Hmode H)
      as (-> & Hmed & Hitems & Hsales & Hns & _).
    split; [|split; [|split; [done|split; [|split]]]].
    + intros k Hk. rewrite Hns in Hk. rewrite Hsales, lookup_insert_ne by lia.
      apply Hkeys. lia.
    + rewrite Hitems. apply Forall_app. split.
      * apply Forall_forall. intros i Hi.
        rewrite Forall_forall in Hfk. destruct (Hfk i Hi) as (Hs & [m Hm] & Hq).
        rewrite Hsales, Hmed, Hm. split; [|split; [by eexists | done]].
        apply lookup_insert_is_Some'. by right.
      * apply Forall_line_items. intros l first Hin. simpl.
        rewrite Forall_forall in Hlines, Hqs. destruct (Hlines l Hin) as [m Hm].
        rewrite Hsales, Hmed, Hm, lookup_insert_eq.
        split; [by eexists|]. split; [by eexists | by apply Hqs].
    + intros k s. rewrite Hsales.
      destruct (decide (next_sale_pk db = k)) as [<-|Hne].
      * rewrite lookup_insert_eq. intros [= <-]. reflexivity.
      * rewrite lookup_insert_ne by done. intros Hs. rewrite (Htot _ _ Hs), Hitems.
        unfold items_of at 2. rewrite filter_app.
        fold (items_of k (items db)).
        fold (items_of k (line_items (next_sale_pk db) (next_item_pk db) (cart data))).
        rewrite items_of_other, app_nil_r by done. done.
    + rewrite Hitems. apply Forall_app. split; [done|].
      by apply storable_lines_in_range.
    + intros k s. rewrite Hsales.
      destruct (decide (next_sale_pk db = k)) as [<-|Hne].
      * rewrite lookup_insert_eq. intros [= <-]. simpl. by split.
      * rewrite lookup_insert_ne by done. apply Hcols.
Qed.

Lemma pos_view_consistent request db :
  consistent db → consistent (pos_view request db).2.
Proof.
  intros Hcons.
  destruct (pos_view_unchanged request db) as [[pk Hok]|Hsame]; [|by rewrite Hsame].
  destruct (pos_view request db) as [r db'] eqn:H. simpl in *. subst r.
  destruct (pos_view_success_inv _ _ _ _ H) as [data Hpost].
  by apply (consistent_success _ _ _ _ _ Hpost Hcons H).
Qed.

Lemma consistent_db0 : consistent db0.
Proof.
  split; [|split; [|split; [|split; [|split]]]].
  - intros pk _. apply lookup_empty.
  - constructor.
  - apply stock_nonneg_db0.
  - intros pk s Hs. simpl in Hs. by rewrite lookup_empty in Hs.
  - constructor.
  - intros pk s Hs. simpl in Hs. by rewrite lookup_empty in Hs.
Qed.

Lemma consistent_db_A : consistent db_A.
Proof. apply pos_view_consistent, consistent_db0. Qed.

(** X3. Requests served one after the other from a consistent store leave, at
    every step, a consistent store: in particular every sale row, not only
    the one just written, still has total_amount = sum of its items'
    subtotals + delivery_fee, and every item row still references an
    existing sale and an existing medicine. *)
Theorem run_keeps_store_consistent requests : ∀ db,
  consistent db → Forall consistent (run requests db).
Proof.
  induction requests as [|r rs IH]; intros db Hcons; simpl; constructor.
  - by apply pos_view_consistent.
  - apply IH. by apply pos_view_consistent.
Qed.

Lemma run_consistent_scenario :
  consistent db0
  ∧ Forall consistent
      (run [request_A; request_B; request_amend_short; request_amend] db0)
  ∧ (λ db, total_of db 1)
      <$> run [request_A; request_B; request_amend_short; request_amend] db0
    = [Some 1600; Some 1600; Some 1600; Some 2700].
Proof.
  split; [exact consistent_db0|]. split; [|reflexivity].
  exact (run_keeps_store_consistent
           [request_A; request_B; request_amend_short; request_amend] db0
           consistent_db0).
Defined.


(** ** What a request leaves alone *)



(** X5. A point-of-sale request never creates or deletes a medicine row and
    never changes anything of a medicine but its quantity: its name and its
    prices are as before. *)
Theorem pos_view_changes_only_quantities request db m :
  Medicine.set_quantity 0 <$> medicines (pos_view request db).2 !! m
  = Medicine.set_quantity 0 <$> medicines db !! m.
Proof.
  destruct (pos_view_unchanged request db) as [[pk Hok]|Hsame]; [|by rewrite Hsame].
  destruct (pos_view request db) as [r db'] eqn:H. simpl in *. subst r.
  destruct (pos_view_success_inv _ _ _ _ H) as [data Hpost].
  apply (pos_view_success _ _ _ _ _ Hpost) in H.
  destruct (amend_target (user request) data) as [target|] eqn:Hmode.
  - destruct (transaction_amend_ok _ _ _ _ _ _ _ Hmode H)
      as (-> & old & _ & Hmed & _).
    rewrite Hmed. by destruct (medicines db !! m).
  - destruct (transaction_apply_ok _ _ _ _ _ _ Hmode H) as (_ & Hmed & _).
    rewrite Hmed. by destruct (medicines db !! m).
Qed.

Lemma success_frames_other_sales request db pk db' k :
  pos_view request db = (JsonSuccess pk, db') →
  k ≠ pk →
  sales db' !! k = sales db !! k
  ∧ items_of k (items db') = items_of k (items db).
Proof.
  intros H Hne.
  destruct (pos_view_success_inv _ _ _ _ H) as [data Hpost].
  apply (pos_view_success _ _ _ _ _ Hpost) in H.
  destruct (amend_target (user request) data) as [target|] eqn:Hmode.
  - destruct (transaction_amend_ok _ _ _ _ _ _ _ Hmode H)
      as (-> & old & _ & _ & Hitems & Hsales & _).
    rewrite Hsales, lookup_insert_ne by done. split; [done|].
    rewrite Hitems. unfold items_of at 1. rewrite filter_app.
    fold (items_of k (filter (λ i, SaleItem.sale i ≠ target) (items db))).
    fold (items_of k (line_items target (next_item_pk db) (cart data))).
    by rewrite items_of_filter_other, items_of_other, app_nil_r.
  - destruct (transaction_apply_ok _ _ _ _ _ _ Hmode H)
      as (-> & _ & Hitems & Hsales & _).
    rewrite Hsales, lookup_insert_ne by done. split; [done|].
    rewrite Hitems. unfold items_of at 1. rewrite filter_app.
    fold (items_of k (items db)).
    fold (items_of k (line_items (next_sale_pk db) (next_item_pk db) (cart data))).
    by rewrite items_of_other, app_nil_r.
Qed.

(** X6. A successful request writes one sale only: every other sale row and
    the items of every other sale are as before. *)
Theorem other_sales_are_untouched request db pk db' k :
  pos_view request db = (JsonSuccess pk, db') →
  k ≠ pk →
  sales db' !! k = sales db !! k
  ∧ items_of k (items db') = items_of k (items db).
Proof. apply success_frames_other_sales. Qed.

(** Amending sale 1 in a store that also holds sale 2. *)
Lemma other_sales_scenario :
  let db := (pos_view request_B (pos_view (post clerk (body [mkLine 2 1 100] 0 None) 8)
                                          db_A).2).2 in
  ∃ db', pos_view request_amend db = (JsonSuccess 1, db')
         ∧ total_of db 2 = Some 100
         ∧ sales db' !! 2 = sales db !! 2
         ∧ items_of 2 (items db') = items_of 2 (items db).
Proof.
  intros db. exists (pos_view request_amend db).2.
  assert (Hrun : pos_view request_amend db
                 = (JsonSuccess 1, (pos_view request_amend db).2)) by reflexivity.
  split; [exact Hrun|]. split; [reflexivity|].
  apply (other_sales_are_untouched request_amend db 1 _ 2 Hrun). lia.
Defined.

(** ** Who may sell and who may amend *)

(** X7. The point of sale answers with a redirect and an untouched store,
    whatever the method and the body, exactly to the users who are not
    logged in, have no profile, or are neither administrators nor holders of
    the add_sale permission. *)
Theorem pos_view_redirects_iff_not_permitted request db :
  (∃ to, pos_view request db = (Redirect to, db))
  ↔ ¬ (User.is_authenticated (user request) = true
       ∧ ∃ p, User.profile (user request) = Some p
              ∧ (Profile.role p = "admin" ∨ "add_sale" ∈ Profile.permissions p)).
Proof.
  unfold pos_view, user_has_permission, is_admin.
  destruct (User.is_authenticated (user request)); simpl.
  2: { split; [intros _ [? _]; discriminate | eauto]. }
  destruct (User.profile (user request)) as [p|]; simpl.
  2: { split; [intros _ [_ (? & ? & _)]; discriminate | eauto]. }
  destruct (decide (Profile.role p = "admin")) as [Hr|Hr].
  - rewrite (bool_decide_eq_true_2 _ Hr). simpl. split.
    + intros [to H]. exfalso. destruct (method request).
      * discriminate.
      * destruct (atomic _ db) as [[?|?] ?]; discriminate.
    + intros Hn. exfalso. apply Hn. eauto.
  - rewrite (bool_decide_eq_false_2 _ Hr).
    destruct (decide ("add_sale" ∈ Profile.permissions p)) as [Hp|Hp].
    + rewrite (bool_decide_eq_true_2 _ Hp). simpl. split.
      * intros [to H]. exfalso. destruct (method request).
        -- discriminate.
        -- destruct (atomic _ db) as [[?|?] ?]; discriminate.
      * intros Hn. exfalso. apply Hn. eauto.
    + rewrite (bool_decide_eq_false_2 _ Hp). simpl. split; [|eauto].
      intros _ [_ (p' & [= <-] & [?|?])]; done.
Qed.

(** X8. Asking to amend a sale that does not exist is answered with the
    not-found error and nothing is kept. *)
Theorem amend_of_missing_sale_is_404 request data db target :
  may_post request data →
  amend_target (user request) data = Some target →
  sales db !! target = None →
  pos_view request db = (JsonError Http404, db).
Proof.
  intros Hpost Hmode Hnone. apply (pos_view_error _ _ _ _ _ Hpost).
  split; [done|]. exists db. unfold sale_transaction, open_sale. rewrite Hmode.
  unfold bind, get_object_or_404. by rewrite Hnone.
Qed.

Lemma amend_missing_scenario :
  let data := body [mkLine 1 1 500] 0 (Some 5) in
  may_post (post admin_user data 9) data
  ∧ amend_target admin_user data = Some 5
  ∧ sales db_A !! 5 = None
  ∧ pos_view (post admin_user data 9) db_A = (JsonError Http404, db_A).
Proof.
  intros data.
  assert (Hpost : may_post (post admin_user data 9) data) by (repeat split).
  split; [exact Hpost|]. do 2 (split; [reflexivity|]).
  exact (amend_of_missing_sale_is_404 (post admin_user data 9) data db_A 5
           Hpost eq_refl eq_refl).
Defined.

(** X9. A POST that names a sale but comes from a user without the
    change_sale permission is not refused: it is served as a new sale. The
    sale gets a key no sale had, and the named sale, like every sale there
    was, keeps its row and its items. *)
Theorem sale_id_without_change_sale_makes_new_sale request data db pk db' :
  may_post request data →
  user_has_permission (user request) "change_sale" = false →
  consistent db →
  pos_view request db = (JsonSuccess pk, db') →
  sales db !! pk = None
  ∧ is_Some (sales db' !! pk)
  ∧ ∀ k s, sales db !! k = Some s →
           sales db' !! k = Some s
           ∧ items_of k (items db') = items_of k (items db).
Proof.
  intros Hpost Hperm Hcons H.
  assert (Hmode : amend_target (user request) data = None).
  { unfold amend_target. rewrite Hperm. by destruct (truthy (sale_id data)). }
  pose proof (apply_effect _ _ _ _ _ Hpost Hmode (consistent_wf _ Hcons) H)
    as (Hpk & _ & _ & _ & Hsale).
  destruct Hcons as (Hkeys & _).
  assert (Hnew : sales db !! pk = None) by (apply Hkeys; lia).
  split; [done|]. split; [by eexists|].
  intros k s Hs.
  destruct (success_frames_other_sales request db pk db' k H) as [Hs' Hi'].
  { intros ->. congruence. }
  by rewrite Hs', Hi'.
Qed.

(** The seller posts a cart naming sale 1: sale 2 is created instead. *)
Lemma sale_id_without_change_sale_scenario :
  let data := body [mkLine 1 1 500] 0 (Some 1) in
  may_post (post seller data 9) data
  ∧ user_has_permission seller "change_sale" = false
  ∧ consistent db_A
  ∧ ∃ db', pos_view (post seller data 9) db_A = (JsonSuccess 2, db')
           ∧ sales db' !! 1 = sales db_A !! 1
           ∧ items_of 1 (items db') = items_of 1 (items db_A).
Proof.
  intros data.
  assert (Hpost : may_post (post seller data 9) data) by (repeat split).
  split; [exact Hpost|]. split; [reflexivity|]. split; [exact consistent_db_A|].
  exists (pos_view (post seller data 9) db_A).2.
  assert (Hrun : pos_view (post seller data 9) db_A
                 = (JsonSuccess 2, (pos_view (post seller data 9) db_A).2))
    by reflexivity.
  split; [exact Hrun|].
  destruct (sale_id_without_change_sale_makes_new_sale (post seller data 9) data db_A 2 _
              Hpost eq_refl consistent_db_A Hrun) as (_ & _ & Hkeep).
  destruct (Hkeep 1 (final_sale 100 [SaleItem.mk 1 1 1 3 500]
                       (assign_fields clerk data_A (Sale.fresh 7))) eq_refl)
    as [Hs Hi].
  split; [rewrite Hs; reflexivity | exact Hi].
Defined.

(** ** Totals *)

(** X10. After a successful request the sale's items-only total (what the
    receipt shows besides the delivery fee) is the sum over the submitted
    cart of quantity x unit price, for a new sale and for an amend alike. *)
Theorem items_only_total_is_cart_total request data db pk db' :
  may_post request data →
  wf_db db = true →
  pos_view request db = (JsonSuccess pk, db') →
  ∃ s, sales db' !! pk = Some s
       ∧ Sale.items_only_total s = cart_total (cart data)
       ∧ Sale.total_amount s = cart_total (cart data) + delivery_fee data.
Proof.
  intros Hpost Hwf H.
  pose proof (post_items_of_sale _ _ _ _ _ Hpost Hwf H) as Hof.
  destruct (amend_target (user request) data) as [target|] eqn:Hmode.
  - destruct (amend_effect _ _ _ _ _ _ Hpost Hmode H)
      as (-> & old & _ & _ & _ & _ & Hsale).
    eexists. split; [exact Hsale|]. unfold Sale.items_only_total. simpl.
    rewrite Hof, sum_subtotals_line_items. split; lia.
  - destruct (apply_effect _ _ _ _ _ Hpost Hmode Hwf H) as (_ & _ & _ & _ & Hsale).
    eexists. split; [exact Hsale|]. unfold Sale.items_only_total. simpl.
    rewrite Hof, sum_subtotals_line_items. split; lia.
Qed.

Lemma items_only_total_scenario :
  may_post request_amend data_amend
  ∧ wf_db db_A = true
  ∧ ∃ db' s, pos_view request_amend db_A = (JsonSuccess 1, db')
             ∧ sales db' !! 1 = Some s
             ∧ Sale.items_only_total s = 2500
             ∧ Sale.total_amount s = 2700.
Proof.
  assert (Hpost : may_post request_amend data_amend) by (repeat split).
  split; [exact Hpost|]. split; [reflexivity|].
  exists (pos_view request_amend db_A).2.
  assert (Hrun : pos_view request_amend db_A
                 = (JsonSuccess 1, (pos_view request_amend db_A).2)) by reflexivity.
  destruct (items_only_total_is_cart_total request_amend data_amend db_A 1 _
              Hpost eq_refl Hrun) as (s & Hs & Hio & Htot).
  exists s. split; [exact Hrun|]. split; [exact Hs|]. split; assumption.
Defined.

(** ** Amending with an empty cart, and with the same cart *)







(** * The inventory views *)

(** X13. [MedicineDeleteView] removes nothing: [Medicine] declares no
    is_active column, so the attribute set by [post] is not written by
    [save].  A logged-in user who holds delete_medicine (or is an
    administrator) and names an existing medicine is redirected to the
    list, and the store -- every medicine row with its stock, every sale,
    every item -- is exactly as before. *)
Theorem MedicineDeleteView_keeps_the_store user pk db med :
  User.is_authenticated user = true →
  user_has_permission user "delete_medicine" = true →
  medicines db !! pk = Some med →
  MedicineDeleteView user pk db = (RedirectTo "medicine_list", db).
Proof.
  intros Hauth Hperm Hmed. unfold MedicineDeleteView, test_func.
  rewrite Hauth, Hperm, Hmed. simpl. by rewrite MedicineDeleteView_post_id.
Qed.

Lemma MedicineDeleteView_scenario :
  User.is_authenticated stock_keeper = true
  ∧ user_has_permission stock_keeper "delete_medicine" = true
  ∧ medicines db_A !! 1 = Some (Medicine.set_quantity 7 med_A)
  ∧ MedicineDeleteView stock_keeper 1 db_A = (RedirectTo "medicine_list", db_A).
Proof.
  do 3 (split; [reflexivity|]).
  exact (MedicineDeleteView_keeps_the_store stock_keeper 1 db_A
           (Medicine.set_quantity 7 med_A) eq_refl eq_refl eq_refl).
Defined.

(** X14. [MedicineDeleteView] does nothing for anyone else: a user who is not
    logged in, or is logged in without the delete_medicine permission (and
    is no administrator), gets the login redirect or the 403 and the store
    is untouched; so does a request for a medicine that does not exist. *)
Theorem MedicineDeleteView_refuses user pk db :
  User.is_authenticated user = false
  ∨ user_has_permission user "delete_medicine" = false
  ∨ medicines db !! pk = None →
  (MedicineDeleteView user pk db).2 = db
  ∧ ∀ url, (MedicineDeleteView user pk db).1 ≠ RedirectTo url.
Proof.
  unfold MedicineDeleteView, test_func.
  destruct (User.is_authenticated user); simpl.
  - destruct (user_has_permission user "delete_medicine"); simpl.
    + intros [?|[?|Hnone]]; try discriminate. rewrite Hnone. by split.
    + intros _. by split.
  - intros _. by split.
Qed.

Lemma MedicineDeleteView_refuses_scenario :
  user_has_permission clerk "delete_medicine" = false
  ∧ MedicineDeleteView clerk 1 db_A = (PermissionDenied, db_A).
Proof.
  split; [reflexivity|].
  destruct (MedicineDeleteView_refuses clerk 1 db_A (or_intror (or_introl eq_refl)))
    as [Hdb _].
  destruct (MedicineDeleteView clerk 1 db_A) as [r db'] eqn:E. simpl in Hdb. subst db'.
  vm_compute in E. injection E as <-. reflexivity.
Defined.

(** * Accounts and the staff views *)

Lemma admin_profile_has_every_permission pk p perm :
  Profile.role p = "admin" →
  user_has_permission (User.mk pk true (Some p)) perm = true.
Proof.
  intros Hr. unfold user_has_permission, is_admin. simpl.
  by rewrite (bool_decide_eq_true_2 _ Hr).
Qed.

(** X15. The receiver keeps superusers administrators: whenever it completes
    for a superuser, newly created or saved again, that user's profile has
    the role admin -- so the user passes every permission check -- with the
    permissions it had, and no other profile is touched. *)
Theorem superuser_profile_is_admin pk instance created ps ps' :
  Account.is_superuser instance = true →
  create_or_update_user_profile pk instance created ps = inr ps' →
  (∃ p, ps' !! pk = Some p
        ∧ Profile.role p = "admin"
        ∧ ∀ p0, ps !! pk = Some p0 → Profile.permissions p = Profile.permissions p0)
  ∧ (∀ k, k ≠ pk → ps' !! k = ps !! k)
  ∧ ∀ perm, user_has_permission (User.mk pk true (ps' !! pk)) perm = true.
Proof.
  intros Hsu H. unfold create_or_update_user_profile in H. rewrite Hsu in H.
  assert (Hmain : (∃ p, ps' !! pk = Some p
                        ∧ Profile.role p = "admin"
                        ∧ ∀ p0, ps !! pk = Some p0
                                → Profile.permissions p = Profile.permissions p0)
                  ∧ (∀ k, k ≠ pk → ps' !! k = ps !! k)).
  { destruct created.
    - destruct (ps !! pk) as [p0|] eqn:Hp0; [discriminate|].
      rewrite lookup_insert_eq in H. simpl in H. injection H as <-. split.
      + eexists. rewrite lookup_insert_eq. split; [done|]. split; [done|].
        intros p0 Hp. discriminate.
      + intros k Hne. by rewrite !lookup_insert_ne.
    - destruct (ps !! pk) as [p0|] eqn:Hp0; [|discriminate].
      destruct (decide (Profile.role p0 = "admin")) as [Hr|Hr].
      + rewrite bool_decide_eq_false_2 in H by tauto. injection H as <-.
        split; [|done]. exists p0. split; [done|]. split; [done|].
        by intros p1 [= <-].
      + rewrite bool_decide_eq_true_2 in H by done. injection H as <-. split.
        * eexists. rewrite lookup_insert_eq. split; [done|]. split; [done|].
          by intros p1 [= <-].
        * intros k Hne. by rewrite lookup_insert_ne. }
  destruct Hmain as [(p & Hp & Hr & Hperm) Hother].
  split; [eauto|]. split; [done|].
  intros perm. rewrite Hp. by apply admin_profile_has_every_permission.
Qed.

(** The superuser of account 1 had been given the staff role by hand. *)
Lemma superuser_scenario :
  let ps := <[1 := Profile.mk "staff" ["add_sale"]%string]> (profiles site0) in
  Account.is_superuser (Account.mk "root" true) = true
  ∧ user_has_permission (User.mk 1 true (ps !! 1)) "change_sale" = false
  ∧ ∃ ps', create_or_update_user_profile 1 (Account.mk "root" true) false ps = inr ps'
           ∧ ps' !! 1 = Some (Profile.mk "admin" ["add_sale"]%string)
           ∧ user_has_permission (User.mk 1 true (ps' !! 1)) "change_sale" = true.
Proof.
  intros ps. split; [reflexivity|]. split; [reflexivity|].
  destruct (create_or_update_user_profile 1 (Account.mk "root" true) false ps)
    as [e|ps'] eqn:E; [by vm_compute in E|].
  exists ps'. split; [reflexivity|].
  destruct (superuser_profile_is_admin 1 (Account.mk "root" true) false ps ps'
              eq_refl E) as (_ & _ & Hall).
  split; [|apply Hall].
  vm_compute in E. injection E as <-. reflexivity.
Defined.



Lemma staff_permission_is_membership pk p perm :
  Profile.role p ≠ "admin" →
  user_has_permission (User.mk pk true (Some p)) perm
  = bool_decide (perm ∈ Profile.permissions p).
Proof.
  intros Hr. unfold user_has_permission, is_admin. simpl.
  by rewrite (bool_decide_eq_false_2 _ Hr).
Qed.

(** X17. When an administrator posts a permission list for a staff member,
    that member afterwards holds exactly the posted permissions (what was
    granted before and is not posted is gone); the role, the other
    profiles, the accounts and the store are as before. *)
Theorem manage_permissions_view_grants_exactly user ids user_id site acct p :
  is_admin user = true →
  users site !! user_id = Some acct →
  profiles site !! user_id = Some p →
  Profile.role p = "staff" →
  ∃ site',
    manage_permissions_view user (Some ids) user_id site
    = (RedirectTo "manage_staff", site')
    ∧ (∀ perm, user_has_permission (logged_in site' user_id) perm
               = bool_decide (perm ∈ ids))
    ∧ (Profile.role <$> profiles site' !! user_id) = Some "staff"
    ∧ (∀ k, k ≠ user_id → profiles site' !! k = profiles site !! k)
    ∧ users site' = users site
    ∧ store site' = store site.
Proof.
  intros Hadmin Hacct Hp Hrole. unfold manage_permissions_view.
  assert (Hauth : User.is_authenticated user = true).
  { unfold is_admin in Hadmin. by apply andb_prop in Hadmin as [? _]. }
  rewrite Hauth, Hadmin, Hacct, Hp. simpl.
  rewrite bool_decide_eq_true_2 by auto.
  rewrite bool_decide_eq_false_2 by (rewrite Hrole; discriminate).
  eexists. split; [reflexivity|]. simpl. repeat split.
  - intros perm. unfold logged_in. simpl. rewrite lookup_insert_eq.
    rewrite staff_permission_is_membership; [done|]. simpl. rewrite Hrole. discriminate.
  - rewrite lookup_insert_eq. simpl. by rewrite Hrole.
  - intros k Hne. by rewrite lookup_insert_ne.
Qed.

(** The administrator takes change_sale from the clerk and grants
    view_sale. *)
Lemma manage_permissions_scenario :
  is_admin admin_user = true
  ∧ user_has_permission (logged_in site0 2) "change_sale" = true
  ∧ ∃ site',
      manage_permissions_view admin_user (Some ["add_sale"; "view_sale"]%string) 2 site0
      = (RedirectTo "manage_staff", site')
      ∧ user_has_permission (logged_in site' 2) "change_sale" = false
      ∧ user_has_permission (logged_in site' 2) "view_sale" = true.
Proof.
  split; [reflexivity|]. split; [reflexivity|].
  destruct (manage_permissions_view_grants_exactly admin_user
              ["add_sale"; "view_sale"]%string 2 site0 (Account.mk "clerk" false)
              (Profile.mk "staff" ["add_sale"; "change_sale"]%string)
              eq_refl eq_refl eq_refl eq_refl) as (site' & Hrun & Hperm & _).
  exists site'. split; [exact Hrun|]. rewrite !Hperm. split; reflexivity.
Defined.

(** X18. [manage_permissions_view] changes nothing unless an administrator
    posts a list for a user whose role is staff: the permissions of an
    administrator cannot be edited through it, a user who is not an
    administrator edits nobody's, and a GET edits nothing. *)
Theorem manage_permissions_view_only_for_staff user posted user_id site :
  (manage_permissions_view user posted user_id site).2 = site
  ∨ (is_admin user = true
     ∧ is_Some posted
     ∧ (Profile.role <$> profiles site !! user_id) = Some "staff").
Proof.
  unfold manage_permissions_view.
  destruct (User.is_authenticated user); simpl; [|by left].
  destruct (is_admin user); simpl; [|by left].
  destruct (users site !! user_id); [|by left].
  destruct (profiles site !! user_id) as [p|]; [|by left].
  destruct (decide (Profile.role p = "admin")) as [Ha|Ha].
  - rewrite bool_decide_eq_true_2 by auto.
    rewrite bool_decide_eq_true_2 by done. by left.
  - destruct (decide (Profile.role p = "staff")) as [Hs|Hs].
    + rewrite bool_decide_eq_true_2 by auto.
      rewrite bool_decide_eq_false_2 by done.
      destruct posted; [|by left]. right. simpl. rewrite Hs. eauto.
    + rewrite bool_decide_eq_false_2 by tauto. by left.
Qed.

Lemma forget_creator_keeps uid s :
  Sale.total_amount (forget_creator uid s) = Sale.total_amount s
  ∧ Sale.delivery_fee (forget_creator uid s) = Sale.delivery_fee s
  ∧ Sale.created_at (forget_creator uid s) = Sale.created_at s
  ∧ Sale.created_by (forget_creator uid s) ≠ Some uid.
Proof.
  unfold forget_creator. destruct (decide (Sale.created_by s = Some uid)) as [H|H].
  - rewrite bool_decide_eq_true_2 by done. by repeat split.
  - rewrite bool_decide_eq_false_2 by done. by repeat split.
Qed.

Lemma User_delete_consistent uid site :
  consistent (store site) → consistent (store (User_delete uid site)).
Proof.
  intros (Hkeys & Hfk & Hnn & Htot & Hcoli & Hcols). unfold User_delete. simpl.
  split; [|split; [|split; [done|split; [|split; [done|]]]]].
  - intros k Hk. simpl. rewrite lookup_fmap, (Hkeys _ Hk). done.
  - simpl. eapply Forall_impl; [exact Hfk|]. simpl. intros i (Hs & Hm & Hq).
    split; [|done]. rewrite lookup_fmap. by apply fmap_is_Some.
  - intros k s. simpl. rewrite lookup_fmap.
    destruct (sales (store site) !! k) as [s0|] eqn:Hs0; [|discriminate].
    simpl. intros [= <-].
    destruct (forget_creator_keeps uid s0) as (-> & -> & _). by apply Htot.
  - intros k s. simpl. rewrite lookup_fmap.
    destruct (sales (store site) !! k) as [s0|] eqn:Hs0; [|discriminate].
    simpl. intros [= <-].
    destruct (forget_creator_keeps uid s0) as (-> & -> & _). exact (Hcols _ _ Hs0).
Qed.

(** X19. When an administrator deletes another user's account, the account
    and its profile are gone (no permission check passes for it any more),
    and every sale is kept: each sale row is as before except that
    created_by is emptied where it named the deleted user; medicines and
    items are untouched and a consistent store stays consistent. *)
Theorem delete_staff_view_keeps_the_sales user user_id site acct :
  is_admin user = true →
  User.pk user ≠ user_id →
  users site !! user_id = Some acct →
  ∃ site',
    delete_staff_view user true user_id site = (RedirectTo "manage_staff", site')
    ∧ users site' !! user_id = None
    ∧ (∀ perm, user_has_permission (logged_in site' user_id) perm = false)
    ∧ (∀ k, sales (store site') !! k = forget_creator user_id <$> sales (store site) !! k)
    ∧ (∀ k s, sales (store site') !! k = Some s → Sale.created_by s ≠ Some user_id)
    ∧ medicines (store site') = medicines (store site)
    ∧ items (store site') = items (store site)
    ∧ (consistent (store site) → consistent (store site')).
Proof.
  intros Hadmin Hne Hacct. unfold delete_staff_view.
  assert (Hauth : User.is_authenticated user = true).
  { unfold is_admin in Hadmin. by apply andb_prop in Hadmin as [? _]. }
  rewrite Hauth, Hadmin, Hacct. simpl. rewrite bool_decide_eq_false_2 by done.
  eexists. split; [reflexivity|]. simpl.
  split; [apply lookup_delete_eq|]. split; [|split; [|split; [|split; [done|split; [done|]]]]].
  - intros perm. unfold logged_in, user_has_permission. simpl.
    by rewrite lookup_delete_eq.
  - intros k. apply lookup_fmap.
  - intros k s. rewrite lookup_fmap.
    destruct (sales (store site) !! k) as [s0|]; [|discriminate].
    simpl. intros [= <-]. apply forget_creator_keeps.
  - apply User_delete_consistent.
Qed.

(** The administrator deletes the clerk, who created sale 1. *)
Lemma delete_staff_scenario :
  is_admin admin_user = true
  ∧ (Sale.created_by <$> sales (store site0) !! 1) = Some (Some 2)
  ∧ ∃ site',
      delete_staff_view admin_user true 2 site0 = (RedirectTo "manage_staff", site')
      ∧ (Sale.created_by <$> sales (store site') !! 1) = Some None
      ∧ total_of (store site') 1 = Some 1600
      ∧ consistent (store site').
Proof.
  split; [reflexivity|]. split; [reflexivity|].
  destruct (delete_staff_view_keeps_the_sales admin_user 2 site0
              (Account.mk "clerk" false) eq_refl) as (site' & Hrun & _ & _ & Hs & _ & _ & _ & Hc);
    [simpl; lia | reflexivity |].
  exists site'. split; [exact Hrun|]. unfold total_of. rewrite Hs.
  split; [reflexivity|]. split; [reflexivity|]. apply Hc. exact consistent_db_A.
Defined.

(** X20. [delete_staff_view] deletes nothing unless an administrator posts
    for another, existing account: no one deletes their own account through
    it, a user who is not an administrator deletes nobody, and a GET only
    shows the confirmation page. *)
Theorem delete_staff_view_never_deletes_self user is_post user_id site :
  (delete_staff_view user is_post user_id site).2 = site
  ∨ (is_admin user = true
     ∧ is_post = true
     ∧ User.pk user ≠ user_id
     ∧ is_Some (users site !! user_id)).
Proof.
  unfold delete_staff_view.
  destruct (User.is_authenticated user); simpl; [|by left].
  destruct (is_admin user); simpl; [|by left].
  destruct (decide (User.pk user = user_id)) as [He|Hne].
  - rewrite bool_decide_eq_true_2 by done. by left.
  - rewrite bool_decide_eq_false_2 by done.
    destruct (users site !! user_id) eqn:Hu; [|by left].
    destruct is_post; [|by left]. right. repeat split; [done|]. by eexists.
Qed.

(** * The sales report *)

Lemma od_alter_keys f k d : (od_alter f k d).*1 = d.*1.
Proof.
  induction d as [|kg d IH]; [done|]. cbn [od_alter].
  destruct (decide (kg.1 = k)); rewrite !fmap_cons; [done | by rewrite IH].
Qed.

Lemma od_alter_compose f g k d :
  od_alter g k (od_alter f k d) = od_alter (λ x, g (f x)) k d.
Proof.
  induction d as [|kg d IH]; simpl; [done|].
  destruct (decide (kg.1 = k)) as [He|Hne]; simpl.
  - by rewrite decide_True.
  - by rewrite decide_False, IH.
Qed.

Lemma od_alter_Forall (P Q : Z * MonthGroup → Prop) f k d :
  NoDup d.*1 →
  Forall P d →
  (∀ k' g, k' ≠ k → P (k', g) → Q (k', g)) →
  (∀ g, P (k, g) → Q (k, f g)) →
  Forall Q (od_alter f k d).
Proof.
  intros Hnd HP Hother Hk. induction d as [|[k0 g0] d IH]; simpl; [constructor|].
  inversion HP as [|? ? HP0 HPd]; subst.
  simpl in Hnd. apply NoDup_cons in Hnd as [Hnotin Hnd].
  destruct (decide (k0 = k)) as [->|Hne]; simpl.
  - constructor; [by apply Hk|].
    apply Forall_forall. intros [k1 g1] Hin. apply Hother.
    + intros ->. apply Hnotin. apply list_elem_of_fmap. by exists (k, g1).
    + rewrite Forall_forall in HPd. by apply HPd.
  - constructor; [by apply Hother | by apply IH].
Qed.

Lemma sum_monthly_app d1 d2 : sum_monthly (d1 ++ d2) = sum_monthly d1 + sum_monthly d2.
Proof.
  unfold sum_monthly. induction d1 as [|kg d1 IH]; simpl; [done | rewrite IH; lia].
Qed.

Lemma total_revenue_app l1 l2 : total_revenue (l1 ++ l2) = total_revenue l1 + total_revenue l2.
Proof.
  unfold total_revenue. induction l1 as [|s l1 IH]; simpl; [done | rewrite IH; lia].
Qed.

Lemma sum_monthly_alter f k d delta :
  k ∈ d.*1 →
  (∀ g, monthly_total (f g) = monthly_total g + delta) →
  sum_monthly (od_alter f k d) = sum_monthly d + delta.
Proof.
  intros Hin Hf. unfold sum_monthly. induction d as [|[k0 g0] d IH]; simpl in *.
  - by apply elem_of_nil in Hin.
  - destruct (decide (k0 = k)) as [->|Hne]; simpl.
    + rewrite Hf. lia.
    + apply elem_of_cons in Hin as [->|Hin]; [done|]. rewrite IH by done. lia.
Qed.

Lemma report_sale_keys month_start d sale :
  (report_sale month_start d sale).*1
  = if od_mem (month_of month_start sale) d then d.*1
    else d.*1 ++ [month_of month_start sale].
Proof.
  unfold report_sale, month_of. rewrite !od_alter_keys.
  destruct (od_mem _ d); [done|]. by rewrite fmap_app.
Qed.

Lemma report_sale_month_in month_start d sale :
  month_of month_start sale
  ∈ (if od_mem (month_of month_start sale) d
     then d else d ++ [(month_of month_start sale, mkGroup [] 0)]).*1.
Proof.
  unfold od_mem. destruct (decide (month_of month_start sale ∈ d.*1)) as [Hin|Hnin].
  - by rewrite bool_decide_eq_true_2.
  - rewrite bool_decide_eq_false_2 by done. rewrite fmap_app. apply elem_of_app.
    right. apply list_elem_of_here.
Qed.

Lemma report_sale_sum month_start d sale :
  sum_monthly (report_sale month_start d sale)
  = sum_monthly d + Sale.total_amount sale.2.
Proof.
  unfold report_sale. rewrite od_alter_compose.
  rewrite (sum_monthly_alter _ _ _ (Sale.total_amount sale.2)).
  - destruct (od_mem _ d); [done|]. rewrite sum_monthly_app. unfold sum_monthly. simpl. lia.
  - apply report_sale_month_in.
  - done.
Qed.

Lemma sales_by_month_sum month_start rows : ∀ d,
  sum_monthly (fold_left (report_sale month_start) rows d)
  = sum_monthly d + total_revenue rows.
Proof.
  induction rows as [|s rows IH]; intros d; simpl; [unfold total_revenue; simpl; lia|].
  rewrite IH, report_sale_sum. unfold total_revenue. simpl. lia.
Qed.

Lemma total_revenue_Permutation l1 l2 : l1 ≡ₚ l2 → total_revenue l1 = total_revenue l2.
Proof.
  unfold total_revenue. induction 1; simpl; lia.
Qed.

(** X21. On the sales report the monthly totals add up to the total revenue,
    and the total revenue is the sum of total_amount over all sales of the
    store (0 when there is none), for any way of cutting time into
    months. *)
Theorem report_monthly_totals_add_up month_start user db groups revenue :
  sales_report_view month_start user db = ReportPage groups revenue →
  sum_monthly groups = revenue
  ∧ revenue = total_revenue (map_to_list (sales db)).
Proof.
  unfold sales_report_view.
  destruct (negb (User.is_authenticated user)); [discriminate|].
  destruct (negb (user_has_permission user "view_sale")); [discriminate|].
  intros [= <- <-]. split.
  - unfold sales_by_month. rewrite sales_by_month_sum. unfold sum_monthly. simpl. lia.
  - apply total_revenue_Permutation. unfold sales_query. apply merge_sort_Permutation.
Qed.

Lemma report_scenario :
  ∃ groups revenue,
    sales_report_view decade auditor db_R = ReportPage groups revenue
    ∧ groups.*1 = [10; 0]
    ∧ monthly_total <$> groups.*2 = [100; 2700]
    ∧ sum_monthly groups = revenue
    ∧ revenue = 2800.
Proof.
  eexists _, _. split; [reflexivity|]. split; [reflexivity|]. split; [reflexivity|].
  destruct (report_monthly_totals_add_up decade auditor db_R _ _ eq_refl) as [Hsum Hrev].
  split; [exact Hsum|]. rewrite Hrev. reflexivity.
Defined.

Lemma filter_none {A} (P : A → Prop) `{∀ x, Decision (P x)} (l : list A) :
  (∀ x, x ∈ l → ¬ P x) → filter P l = [].
Proof.
  induction l as [|x l IH]; intros Hno; [done|].
  rewrite filter_cons_False by (apply Hno, list_elem_of_here).
  apply IH. intros y Hy. apply Hno. by apply list_elem_of_further.
Qed.

Lemma report_sale_groups month_start done d sale :
  groups_of month_start done d →
  groups_of month_start (done ++ [sale]) (report_sale month_start d sale).
Proof.
  intros (Hnd & Hall & Hin).
  set (m := month_of month_start sale).
  set (d1 := if od_mem m d then d else d ++ [(m, mkGroup [] 0)]).
  assert (Hnd1 : NoDup d1.*1).
  { unfold d1, od_mem. destruct (decide (m ∈ d.*1)) as [Hm|Hm].
    - by rewrite bool_decide_eq_true_2.
    - rewrite bool_decide_eq_false_2 by done. rewrite fmap_app. apply NoDup_app.
      split; [done|]. split; [|apply NoDup_singleton].
      intros k Hk Hk'. apply list_elem_of_singleton in Hk'. simpl in Hk'. by subst. }
  assert (Hkeys1 : ∀ k, k ∈ d.*1 → k ∈ d1.*1).
  { intros k Hk. unfold d1. destruct (od_mem m d); [done|].
    rewrite fmap_app. apply elem_of_app. by left. }
  assert (Hm1 : m ∈ d1.*1) by apply report_sale_month_in.
  assert (Hall1 : Forall (λ kg, group_sales kg.2
                                = filter (λ s, month_of month_start s = kg.1) done
                                ∧ monthly_total kg.2 = total_revenue (group_sales kg.2)
                                ∧ (kg.1 ≠ m → group_sales kg.2 ≠ [])) d1).
  { assert (Hd : Forall (λ kg, group_sales kg.2
                                = filter (λ s, month_of month_start s = kg.1) done
                                ∧ monthly_total kg.2 = total_revenue (group_sales kg.2)
                                ∧ (kg.1 ≠ m → group_sales kg.2 ≠ [])) d).
    { eapply Forall_impl; [exact Hall|]. simpl. intros kg (? & ? & ?). auto. }
    unfold d1, od_mem. destruct (decide (m ∈ d.*1)) as [Hm|Hm].
    - by rewrite bool_decide_eq_true_2.
    - rewrite bool_decide_eq_false_2 by done. apply Forall_app. split; [done|].
      constructor; [|constructor]. simpl. split; [|split; [done|done]].
      symmetry. apply filter_none. intros s Hs Hms. apply Hm.
      rewrite <- Hms. by apply Hin. }
  unfold report_sale. fold m. fold d1. rewrite od_alter_compose.
  split; [by rewrite od_alter_keys|]. split.
  - eapply (od_alter_Forall _ _ _ _ _ Hnd1 Hall1).
    + intros k g Hne (Hs & Ht & Hnon). simpl in *. split; [|split; [done|auto]].
      rewrite filter_app, Hs.
      rewrite (filter_cons_False _ sale) by (intros E; apply Hne; symmetry; exact E).
      by rewrite filter_nil, app_nil_r.
    + intros g (Hs & Ht & _). simpl in *. split; [|split].
      * rewrite filter_app, Hs. by rewrite (filter_cons_True _ sale), filter_nil.
      * rewrite total_revenue_app, Ht. unfold total_revenue. simpl. lia.
      * by destruct (group_sales g).
  - intros s Hs. rewrite od_alter_keys. apply elem_of_app in Hs as [Hs|Hs].
    + apply Hkeys1. by apply Hin.
    + apply list_elem_of_singleton in Hs. by subst.
Qed.

Lemma sales_by_month_groups month_start rows : ∀ done d,
  groups_of month_start done d →
  groups_of month_start (done ++ rows) (fold_left (report_sale month_start) rows d).
Proof.
  induction rows as [|s rows IH]; intros done d H; simpl.
  - by rewrite app_nil_r.
  - replace (done ++ s :: rows) with ((done ++ [s]) ++ rows) by (by rewrite <- app_assoc).
    apply IH. by apply report_sale_groups.
Qed.

(** X22. The report groups the sales by month and loses none: the months
    listed are distinct, each is listed with exactly the sales of that
    month, in the order of the query, none of them empty, its monthly total
    being the sum of their total_amount; and every sale of the query is in
    the group of its month. *)
Theorem report_groups_sales_by_month month_start rows :
  groups_of month_start rows (sales_by_month month_start rows).
Proof.
  apply (sales_by_month_groups month_start rows [] []).
  split; [constructor|]. split; [constructor|]. intros s Hs. by apply elem_of_nil in Hs.
Qed.

(** * The point-of-sale page *)

(** X23. A GET of the point-of-sale page changes nothing in the store and
    never renders the page: a visitor who is not logged in or lacks add_sale
    is redirected, and for everyone else the filter on is_active, a field
    [Medicine] does not declare, raises FieldError before anything is
    rendered. *)
Theorem pos_view_GET_never_renders request db sale_id :
  method request = GET sale_id →
  (pos_view request db).2 = db
  ∧ (∀ medicines sale, (pos_view request db).1 ≠ Render medicines sale)
  ∧ (User.is_authenticated (user request) = true →
     user_has_permission (user request) "add_sale" = true →
     (pos_view request db).1 = ServerError (FieldError "is_active")).
Proof.
  intros Hget. unfold pos_view. rewrite Hget.
  destruct (User.is_authenticated (user request)); simpl; [|by repeat split].
  destruct (user_has_permission (user request) "add_sale"); simpl; by repeat split.
Qed.

Lemma pos_view_GET_scenario :
  method (mkRequest clerk (GET (Some 1)) 9) = GET (Some 1)
  ∧ pos_view (mkRequest clerk (GET (Some 1)) 9) db_A
    = (ServerError (FieldError "is_active"), db_A).
Proof.
  split; [reflexivity|].
  destruct (pos_view_GET_never_renders (mkRequest clerk (GET (Some 1)) 9) db_A (Some 1)
              eq_refl) as (Hdb & _ & Hresp).
  specialize (Hresp eq_refl eq_refl).
  destruct (pos_view (mkRequest clerk (GET (Some 1)) 9) db_A) as [r db'].
  simpl in Hdb, Hresp. by subst.
Defined.
